(** * deep_sort_realtime: the [DeepSort] wrapper of [deepsort_tracker.py]

    A shallow embedding of the class [DeepSort] (its per-frame entry point
    [update_tracks] and the helpers [generate_embeds], [create_detections]
    and [refresh_track_ids]) together with the properties its specification
    states about it.

    Numbers.  Box coordinates, confidences and the NMS threshold are Python
    [float or int]; they are modelled by exact rationals [Q].  The only
    operations the source applies to them are the comparisons [> 0] and
    [< 1.0] and the conversion [int(x)], all of which are exact on finite
    values.  NaN and the infinities are outside the model. *)

From Stdlib Require Import ZArith QArith String Lia.
From stdpp Require Import base list.

Local Open Scope Z_scope.

(** ** Python and numpy primitives used by the source *)

Module Py.

(** [x > y] on numbers. *)
Definition Qltb (x y : Q) : bool := negb (Qle_bool y x).

(** [int(x)] of a finite number: truncation toward zero.  [int()] of NaN or
    of an infinity raises instead; those floats are no values of [Q], so a
    run that converts one (line 137, reached only when no descriptors are
    supplied) is not a run of this model, and the statements below say what
    a call does when the embedder has returned, never that it is reached. *)
Definition int (x : Q) : Z := Z.quot (Qnum x) (Zpos (Qden x)).

(** One bound of a basic slice on an axis of length [n], as CPython's
    [PySlice_AdjustIndices] computes it for step 1: a negative bound counts
    from the end, and every bound is clamped into [0, n]. *)
Definition adjust_index (n i : Z) : Z :=
  if i <? 0 then Z.max 0 (i + n) else Z.min i n.

(** [a[start:stop]] on an axis of length [n]: first selected position and
    number of selected positions. *)
Definition slice_indices (n : nat) (start stop : Z) : nat * nat :=
  let s := adjust_index (Z.of_nat n) start in
  let e := adjust_index (Z.of_nat n) stop in
  (Z.to_nat s, Z.to_nat (e - s)).

(** [l[i]] on a list: positions [-len .. len-1] are valid, a negative one
    counts from the end; [None] stands for [IndexError]. *)
Definition getitem {A : Type} (l : list A) (i : Z) : option A :=
  let n := Z.of_nat (length l) in
  if (0 <=? i) && (i <? n) then l !! Z.to_nat i
  else if (- n <=? i) && (i <? 0) then l !! Z.to_nat (i + n)
  else None.

End Py.

(** ** Data model *)

(** A bounding box [[left, top, w, h]]. *)
Record Box : Type := mkBox { bx_l : Q; bx_t : Q; bx_w : Q; bx_h : Q }.

(** An appearance descriptor, an array of floats. *)
Definition Embed : Type := list Q.

(** A raw detection: the tuple [([left,top,w,h], confidence, detection_class)]. *)
Definition RawDet : Type := (Box * Q * string)%type.

(** The channel values of a pixel. *)
Definition Pixel : Type := list Z.

(** An image [frame] of shape [[H,W,C]], and every crop taken from one: the
    shape and the pixel at each row and column. *)
Record Frame : Type := mkFrame {
  im_height : nat;
  im_width : nat;
  pixel : nat -> nat -> Pixel
}.

(** [frame[t:b, l:r]], a view into [frame]. *)
Definition crop (frame : Frame) (t b l r : Z) : Frame :=
  let '(r0, nr) := Py.slice_indices (im_height frame) t b in
  let '(c0, nc) := Py.slice_indices (im_width frame) l r in
  {| im_height := nr; im_width := nc;
     pixel := fun i j => pixel frame (r0 + i)%nat (c0 + j)%nat |}.

(** Modelled from the spec: the Detection of section 3 (class [Detection] of
    [deep_sort/detection.py] is missing): box, confidence, descriptor and
    class label, in the order of the constructor call
    [Detection(tlwh, confidence, feature, class_name)] of line 151; lines
    115-116 read back [tlwh] and [confidence]. *)
Record Detection : Type := mkDetection {
  tlwh : Box;
  confidence : Q;
  feature : Embed;
  class_name : string
}.

(** The embedder object: the arguments of the constructor call
    [Embedder(half=half, max_batch_size=16, bgr=bgr)] of line 69. *)
Record Embedder : Type := mkEmbedder {
  half : bool;
  max_batch_size : Z;
  bgr : bool
}.

(** A box of strictly positive width and height. *)
Definition positive_box (b : Box) : Prop := (0 < bx_w b)%Q /\ (0 < bx_h b)%Q.

(** ** The pure parts of [DeepSort] *)

(** Line 106: [[ d for d in raw_detections if d[0][2] > 0 and d[0][3] > 0 ]]. *)
Definition positive_size (d : RawDet) : bool :=
  Py.Qltb 0 (bx_w d.1.1) && Py.Qltb 0 (bx_h d.1.1).

Definition filter_raw_detections (raw_detections : list RawDet) : list RawDet :=
  List.filter positive_size raw_detections.

(** The body of the loop of [generate_embeds] (lines 137-144): the crop
    appended for one detection. *)
Definition detection_crop (frame : Frame) (detection : RawDet) : Frame :=
  let im_height := Z.of_nat (im_height frame) in
  let im_width := Z.of_nat (im_width frame) in
  let l := Py.int (bx_l detection.1.1) in
  let t := Py.int (bx_t detection.1.1) in
  let w := Py.int (bx_w detection.1.1) in
  let h := Py.int (bx_h detection.1.1) in
  let r := l + w in
  let b := t + h in
  let crop_l := Z.max 0 l in
  let crop_r := Z.min im_width r in
  let crop_t := Z.max 0 t in
  let crop_b := Z.min im_height b in
  crop frame crop_t crop_b crop_l crop_r.

(** The list [crops] that [generate_embeds] hands to the embedder. *)
Definition crops_of (frame : Frame) (raw_dets : list RawDet) : list Frame :=
  map (detection_crop frame) raw_dets.

(** [create_detections] (lines 147-152): one [Detection] per pair that
    [zip(raw_dets, embeds)] yields; [zip] stops at the shorter list. *)
Definition create_detections (raw_dets : list RawDet) (embeds : list Embed)
  : list Detection :=
  (fun '(raw_det, embed) =>
     mkDetection raw_det.1.1 raw_det.1.2 embed raw_det.2)
    <$> zip raw_dets embeds.

(** ** Exceptions *)

Inductive exn : Type :=
| EmbedderNotCreated        (** line 102 *)
| EmbeddingsOrFrameMissing  (** line 104 *)
| AttributeError            (** an attribute of [None] is read *)
| IndexError                (** [detections[i]] out of range *)
| Raised (msg : string)     (** raised inside a collaborator *).

(** ** Collaborators

    [deepsort_tracker.py] imports the tracker, the embedder and the NMS
    routine from sibling modules.  The wrapper is verified against their
    interfaces. *)

Class TrackerAPI : Type := {
  Track : Type;
  Tracker : Type;
  TrackClass : Type;
  Clock : Type;
  (** [Tracker(metric, max_age, override_track_class, clock)], with the
      metric [NearestNeighborDistanceMetric("cosine", max_cosine_distance,
      nn_budget)] *)
  Tracker_new : Q -> option Z -> Z -> option TrackClass -> option Clock -> Tracker;
  (** the attributes [tracker.tracks] and [tracker._next_id] *)
  tracks : Tracker -> list Track;
  _next_id : Tracker -> Z;
  (** [tracker.predict()] and [tracker.update(detections)] *)
  Tracker_predict : Tracker -> Tracker;
  Tracker_update : Tracker -> list Detection -> Tracker
}.

Class Helpers : Type := {
  (** [embedder.predict(crops)]: the descriptors, or the message of the
      exception it raises *)
  Embedder_predict : Embedder -> list Frame -> string + list Embed;
  (** [non_max_suppression(boxes, max_bbox_overlap, scores)]: the kept indices *)
  non_max_suppression : list Box -> Q -> list Q -> list Z
}.

(** ** The stateful part of [DeepSort] *)

Section DeepSort.

Context `{TrackerAPI} `{Helpers}.

(** The attributes [__init__] sets (the logger apart). *)
Record DeepSort : Type := mkDeepSort {
  nms_max_overlap : Q;
  tracker : Tracker;
  embedder : option Embedder
}.

Definition init (max_age : Z) (nms_max_overlap max_cosine_distance : Q)
    (nn_budget : option Z) (override_track_class : option TrackClass)
    (clock : option Clock) (embedder half bgr : bool) : DeepSort :=
  {| nms_max_overlap := nms_max_overlap;
     tracker := Tracker_new max_cosine_distance nn_budget max_age
                  override_track_class clock;
     embedder := if embedder then Some (mkEmbedder half 16 bgr) else None |}.

(** A call into a collaborator, with its arguments. *)
Inductive Call : Type :=
| CallEmbedder (crops : list Frame)
| CallNMS (boxes : list Box) (max_bbox_overlap : Q) (scores : list Q)
| CallPredict
| CallUpdate (detections : list Detection).

(** What running a method leaves behind: the value it returns or the
    exception it raises, the object afterwards (mutations made before a
    raise persist), and the collaborator calls made, in order. *)
Record Run (A : Type) : Type := mkRun {
  outcome : exn + A;
  self_after : DeepSort;
  calls : list Call
}.
Arguments mkRun {A}.
Arguments outcome {A}.
Arguments self_after {A}.
Arguments calls {A}.

Definition M (A : Type) : Type := DeepSort -> Run A.

Definition ret {A} (a : A) : M A := fun self => mkRun (inr a) self [].
Definition raise {A} (e : exn) : M A := fun self => mkRun (inl e) self [].
Definition bind {A B} (m : M A) (k : A -> M B) : M B := fun self =>
  match m self with
  | mkRun (inl e) self' cs => mkRun (inl e) self' cs
  | mkRun (inr a) self' cs =>
      match k a self' with
      | mkRun o self'' cs' => mkRun o self'' (cs ++ cs')
      end
  end.

Notation "x <- m ;; k" := (bind m (fun x => k))
  (at level 100, m at next level, right associativity).
Notation "m ;;; k" := (bind m (fun _ => k))
  (at level 100, right associativity).

(** Reading an attribute of [self]. *)
Definition get {A} (attr : DeepSort -> A) : M A := fun self =>
  mkRun (inr (attr self)) self [].

(** [self.embedder.predict(crops)] *)
Definition embedder_predict (crops : list Frame) : M (list Embed) := fun self =>
  match embedder self with
  | None => mkRun (inl AttributeError) self []
  | Some e =>
      mkRun (match Embedder_predict e crops with
             | inl msg => inl (Raised msg)
             | inr embeds => inr embeds
             end) self [CallEmbedder crops]
  end.

Definition call_nms (boxes : list Box) (max_bbox_overlap : Q) (scores : list Q)
  : M (list Z) := fun self =>
  mkRun (inr (non_max_suppression boxes max_bbox_overlap scores)) self
    [CallNMS boxes max_bbox_overlap scores].

(** [self.tracker.predict()] and [self.tracker.update(detections)] mutate
    the tracker in place. *)
Definition tracker_predict : M unit := fun self =>
  mkRun (inr tt)
    {| nms_max_overlap := nms_max_overlap self;
       tracker := Tracker_predict (tracker self);
       embedder := embedder self |} [CallPredict].

Definition tracker_update (detections : list Detection) : M unit := fun self =>
  mkRun (inr tt)
    {| nms_max_overlap := nms_max_overlap self;
       tracker := Tracker_update (tracker self) detections;
       embedder := embedder self |} [CallUpdate detections].

(** [[detections[i] for i in indices]] (line 123) *)
Fixpoint select (detections : list Detection) (indices : list Z)
  : M (list Detection) :=
  match indices with
  | [] => ret []
  | i :: indices' =>
      match Py.getitem detections i with
      | None => raise IndexError
      | Some d => ds <- select detections indices' ;; ret (d :: ds)
      end
  end.

(** [generate_embeds] (lines 131-145); [frame.shape] of [None] raises. *)
Definition generate_embeds (frame : option Frame) (raw_dets : list RawDet)
  : M (list Embed) :=
  match frame with
  | None => raise AttributeError
  | Some frame => embedder_predict (crops_of frame raw_dets)
  end.

(** [update_tracks] (lines 81-129) *)
Definition update_tracks (raw_detections : list RawDet)
    (embeds : option (list Embed)) (frame : option Frame) : M (list Track) :=
  (match embeds with
   | None =>
       e <- get embedder ;;
       (match e with
        | None => raise EmbedderNotCreated
        | Some _ => ret tt
        end) ;;;
       match frame with
       | None => raise EmbeddingsOrFrameMissing
       | Some _ => ret tt
       end
   | Some _ => ret tt
   end) ;;;
  let raw_detections := filter_raw_detections raw_detections in
  embeds <- (match embeds with
             | None => generate_embeds frame raw_detections
             | Some embeds => ret embeds
             end) ;;
  let detections := create_detections raw_detections embeds in
  let boxes := tlwh <$> detections in
  let scores := confidence <$> detections in
  nms_max_overlap <- get nms_max_overlap ;;
  detections <- (if Py.Qltb nms_max_overlap 1
                 then indices <- call_nms boxes nms_max_overlap scores ;;
                      select detections indices
                 else ret detections) ;;
  tracker_predict ;;;
  tracker_update detections ;;;
  t <- get tracker ;;
  ret (tracks t).

(** [refresh_track_ids] (lines 154-155): the attribute is read and the
    value dropped; the method returns [None]. *)
Definition refresh_track_ids : M unit :=
  _ <- get (fun self => _next_id (tracker self)) ;;
  ret tt.

(** The calls of a run by collaborator: the tracker calls in order, the
    arguments of the NMS calls, the lists handed to [tracker.update]. *)
Definition is_tracker_call (c : Call) : bool :=
  match c with CallPredict | CallUpdate _ => true | _ => false end.

Definition tracker_calls (cs : list Call) : list Call :=
  List.filter is_tracker_call cs.

Definition nms_calls (cs : list Call) : list (list Box * Q * list Q) :=
  omap (fun c => match c with
                 | CallNMS boxes o scores => Some (boxes, o, scores)
                 | _ => None
                 end) cs.

Definition update_calls (cs : list Call) : list (list Detection) :=
  omap (fun c => match c with CallUpdate ds => Some ds | _ => None end) cs.

Definition embedder_calls (cs : list Call) : list (list Frame) :=
  omap (fun c => match c with CallEmbedder crops => Some crops | _ => None end)
    cs.

(** [self] with its tracker replaced. *)
Definition with_tracker (self : DeepSort) (t : Tracker) : DeepSort :=
  {| nms_max_overlap := nms_max_overlap self; tracker := t;
     embedder := embedder self |}.

(** The run of [update_tracks] written out case by case, without the monad;
    [update_tracks_unfolded_eq] proves the two equal.  [after_embeds] is the
    part of the run that follows once the descriptors [embeds] are known and
    the calls [pre] have been made. *)
Definition after_embeds (raw_detections : list RawDet) (self : DeepSort)
    (pre : list Call) (embeds : list Embed) : Run (list Track) :=
  let detections := create_detections raw_detections embeds in
  let o := nms_max_overlap self in
  if Py.Qltb o 1 then
    let boxes := tlwh <$> detections in
    let scores := confidence <$> detections in
    match mapM (Py.getitem detections) (non_max_suppression boxes o scores) with
    | None => mkRun (inl IndexError) self (pre ++ [CallNMS boxes o scores])
    | Some kept =>
        let t := Tracker_update (Tracker_predict (tracker self)) kept in
        mkRun (inr (tracks t)) (with_tracker self t)
          (pre ++ [CallNMS boxes o scores; CallPredict; CallUpdate kept])
    end
  else
    let t := Tracker_update (Tracker_predict (tracker self)) detections in
    mkRun (inr (tracks t)) (with_tracker self t)
      (pre ++ [CallPredict; CallUpdate detections]).

(** The value of the variable [embeds] after line 109, when that line is
    passed: the descriptors supplied, or else those the embedder returns for
    the crops of the filtered detections. *)
Definition descriptors_used (raw_detections : list RawDet)
    (embeds : option (list Embed)) (frame : option Frame) (self : DeepSort)
  : option (list Embed) :=
  match embeds with
  | Some embeds => Some embeds
  | None =>
      match embedder self, frame with
      | Some e, Some frame =>
          match Embedder_predict e
                  (crops_of frame (filter_raw_detections raw_detections)) with
          | inr embeds => Some embeds
          | inl _ => None
          end
      | _, _ => None
      end
  end.

Definition update_tracks_unfolded (raw_detections : list RawDet)
    (embeds : option (list Embed)) (frame : option Frame) (self : DeepSort)
  : Run (list Track) :=
  let raw_detections := filter_raw_detections raw_detections in
  match embeds with
  | Some embeds => after_embeds raw_detections self [] embeds
  | None =>
      match embedder self, frame with
      | None, _ => mkRun (inl EmbedderNotCreated) self []
      | Some _, None => mkRun (inl EmbeddingsOrFrameMissing) self []
      | Some e, Some frame =>
          let crops := crops_of frame raw_detections in
          match Embedder_predict e crops with
          | inl msg => mkRun (inl (Raised msg)) self [CallEmbedder crops]
          | inr embeds =>
              after_embeds raw_detections self [CallEmbedder crops] embeds
          end
      end
  end.

End DeepSort.

Arguments mkRun {_ _}.
Arguments outcome {_ _}.
Arguments self_after {_ _}.
Arguments calls {_ _}.

(** ** The tracker

    [deep_sort/tracker.py] and [deep_sort/track.py] are not part of this
    source file.  The lifecycle manager below follows the specification
    (sections 3, 4.4 and 7); the motion model and the association engine stay
    parameters. *)

Module TrackerSpec.

(** Modelled from the spec: the lifecycle state of a track (section 3). *)
Inductive TrackState : Type := Tentative | Confirmed | Deleted.

Section Lifecycle.

(** The motion state of a track, and the three steps of the motion model
    (section 4.1): initial state from a box, predict, correct. *)
Context {Motion : Type}.
Variable motion_initiate : Box -> Motion.
Variable motion_predict : Motion -> Motion.
Variable motion_correct : Motion -> Box -> Motion.

(** Modelled from the spec: the Track entity of section 3 (class [Track] of
    [deep_sort/track.py] is missing). *)
Record Track : Type := mkTrack {
  track_id : Z;
  motion : Motion;
  gallery : list Embed;
  state : TrackState;
  hits : Z;
  time_since_update : Z;
  det_class : string
}.

(** Modelled from the spec: the Tracker aggregate of section 3 (class
    [Tracker] of [deep_sort/tracker.py] is missing): the live tracks, the
    identifier counter and the configured thresholds. *)
Record Tracker : Type := mkTracker {
  tracks : list Track;
  _next_id : Z;
  max_age : Z;
  n_init : Z;
  max_cosine_distance : Q;
  nn_budget : option Z
}.

(** The solver of the association engine (section 4.3): matched (track,
    detection) index pairs, unmatched track indices, unmatched detection
    indices. *)
Variable solve : Tracker -> list Detection ->
  list (nat * nat) * list nat * list nat.

(** Modelled from the spec: section 7, assignment infeasibility: with no
    tracks or no detections everything is unmatched and the solver is not
    invoked. *)
Definition associate (t : Tracker) (detections : list Detection)
  : list (nat * nat) * list nat * list nat :=
  match tracks t, detections with
  | [], _ | _, [] => ([], seq 0 (length (tracks t)), seq 0 (length detections))
  | _, _ => solve t detections
  end.

(** Modelled from the spec: section 4.2, the gallery keeps the most recent
    descriptors up to the budget, oldest evicted first. *)
Definition gallery_push (budget : option Z) (g : list Embed) (e : Embed)
  : list Embed :=
  let g' := g ++ [e] in
  match budget with
  | None => g'
  | Some b => drop (length g' - Z.to_nat b) g'
  end.

(** Modelled from the spec: section 4.4 step 1, predict. *)
Definition predict (t : Tracker) : Tracker :=
  {| tracks := (fun k => mkTrack (track_id k) (motion_predict (motion k))
                           (gallery k) (state k) (hits k)
                           (time_since_update k) (det_class k)) <$> tracks t;
     _next_id := _next_id t; max_age := max_age t; n_init := n_init t;
     max_cosine_distance := max_cosine_distance t; nn_budget := nn_budget t |}.

(** Modelled from the spec: section 4.4 step 3, update of a matched track. *)
Definition track_update (t : Tracker) (k : Track) (d : Detection) : Track :=
  let hits' := hits k + 1 in
  {| track_id := track_id k;
     motion := motion_correct (motion k) (tlwh d);
     gallery := gallery_push (nn_budget t) (gallery k) (feature d);
     state := match state k with
              | Tentative => if n_init t <=? hits' then Confirmed else Tentative
              | s => s
              end;
     hits := hits';
     time_since_update := 0;
     det_class := class_name d |}.

(** Modelled from the spec: section 4.4 step 4, ageing of an unmatched
    track. *)
Definition mark_missed (t : Tracker) (k : Track) : Track :=
  let age := time_since_update k + 1 in
  {| track_id := track_id k; motion := motion k; gallery := gallery k;
     state := match state k with
              | Tentative => Deleted
              | s => if max_age t <? age then Deleted else s
              end;
     hits := hits k;
     time_since_update := age;
     det_class := det_class k |}.

(** Modelled from the spec: section 4.4 step 5, a new Tentative track for an
    unmatched detection. *)
Definition initiate_track (id : Z) (d : Detection) : Track :=
  {| track_id := id; motion := motion_initiate (tlwh d);
     gallery := [feature d]; state := Tentative; hits := 0;
     time_since_update := 0; det_class := class_name d |}.

Definition is_deleted (k : Track) : bool :=
  match state k with Deleted => true | _ => false end.

(** Modelled from the spec: section 4.4 steps 2 to 6, the update of the
    tracker for one frame ([Tracker.update] of [deep_sort/tracker.py] is
    missing). *)
Definition update (t : Tracker) (detections : list Detection) : Tracker :=
  let '(matches, unmatched_tracks, unmatched_detections) :=
    associate t detections in
  let matched :=
    foldl (fun ks '(ti, di) =>
             match ks !! ti, detections !! di with
             | Some k, Some d => <[ti := track_update t k d]> ks
             | _, _ => ks
             end) (tracks t) matches in
  let aged :=
    foldl (fun ks ti =>
             match ks !! ti with
             | Some k => <[ti := mark_missed t k]> ks
             | None => ks
             end) matched unmatched_tracks in
  let '(spawned, next) :=
    foldl (fun '(ks, id) di =>
             match detections !! di with
             | Some d => (ks ++ [initiate_track id d], id + 1)
             | None => (ks, id)
             end) (aged, _next_id t) unmatched_detections in
  {| tracks := List.filter (fun k => negb (is_deleted k)) spawned;
     _next_id := next; max_age := max_age t; n_init := n_init t;
     max_cosine_distance := max_cosine_distance t; nn_budget := nn_budget t |}.

(** Modelled from the spec: section 6, the configuration surface.  The
    confirmation threshold is not an argument of [DeepSort.__init__]; it is
    the parameter [n_init] here. *)
Variable n_init0 : Z.

Definition new (max_cosine_distance : Q) (nn_budget : option Z) (max_age : Z)
    (override_track_class : option unit) (clock : option unit) : Tracker :=
  {| tracks := []; _next_id := 1; max_age := max_age; n_init := n_init0;
     max_cosine_distance := max_cosine_distance; nn_budget := nn_budget |}.

(** The tracker as [DeepSort] sees it. *)
Definition api : TrackerAPI :=
  Build_TrackerAPI Track Tracker unit unit new tracks _next_id predict update.

End Lifecycle.

End TrackerSpec.

(** ** The region the specification describes for a crop

    Rows [max(0,t) .. min(H,t+h)] and columns [max(0,l) .. min(W,l+w)] of the
    frame, empty when the upper end is not above the lower one. *)
Definition clipped_region (frame : Frame) (detection : RawDet) : Frame :=
  let H := Z.of_nat (im_height frame) in
  let W := Z.of_nat (im_width frame) in
  let l := Py.int (bx_l detection.1.1) in
  let t := Py.int (bx_t detection.1.1) in
  let w := Py.int (bx_w detection.1.1) in
  let h := Py.int (bx_h detection.1.1) in
  {| im_height := Z.to_nat (Z.min H (t + h) - Z.max 0 t);
     im_width := Z.to_nat (Z.min W (l + w) - Z.max 0 l);
     pixel := fun i j =>
       pixel frame (Z.to_nat (Z.max 0 t) + i)%nat (Z.to_nat (Z.max 0 l) + j)%nat |}.

(** ** Concrete collaborators and inputs

    Simple stand-ins for the motion model, the solver, the embedder and the
    NMS routine, on which the model runs; the inputs are those of the
    [__main__] block of the source (lines 157-212). *)

Module Demo.

(** A motion state that is the last box seen. *)
Definition tracker_api : TrackerAPI :=
  TrackerSpec.api (Motion := Box)
    (fun b => b) (fun m => m) (fun _ b => b)
    (fun t detections =>
       let n := Nat.min (length (TrackerSpec.tracks t)) (length detections) in
       ((fun i => (i, i)) <$> seq 0 n,
        seq n (length (TrackerSpec.tracks t) - n),
        seq n (length detections - n)))
    3.

(** An embedder that describes a crop by its shape and refuses an empty
    crop; an NMS routine that keeps every index. *)
Definition helpers : Helpers := {|
  Embedder_predict := fun _ crops =>
    if forallb (fun c => (0 <? im_height c)%nat && (0 <? im_width c)%nat) crops
    then inr ((fun c => [inject_Z (Z.of_nat (im_height c));
                         inject_Z (Z.of_nat (im_width c))]) <$> crops)
    else inl "empty crop"%string;
  non_max_suppression := fun boxes _ _ => Z.of_nat <$> seq 0 (length boxes)
|}.

#[local] Existing Instance tracker_api.
#[local] Existing Instance helpers.

(** Line 162: [DeepSort(max_age = 30, nn_budget=100, nms_max_overlap=1.0,
    clock=clock, embedder=False)]. *)
Definition tracker0 : DeepSort :=
  init 30 1 (2 # 10) (Some 100) None (Some tt) false true true.

(** The same with the built-in embedder, and with suppression switched on. *)
Definition tracker_emb : DeepSort :=
  init 30 1 (2 # 10) (Some 100) None (Some tt) true true true.

Definition tracker_nms : DeepSort :=
  init 30 (1 # 2) (2 # 10) (Some 100) None (Some tt) false true true.

Definition box (l t w h : Z) : Box :=
  mkBox (inject_Z l) (inject_Z t) (inject_Z w) (inject_Z h).

(** Lines 169-170. *)
Definition detections1 : list RawDet :=
  [ (box 0 0 50 50, 5 # 10, "person"%string);
    (box 50 50 50 50, 5 # 10, "person"%string) ].

Definition embeds1 : list Embed :=
  [ [1 # 10; 1 # 10; 1 # 10; 1 # 10]; [- (1); 1; 1 # 2; - (1 # 2)] ]%Q.

(** A frame of 100 rows and 100 columns whose pixel holds its position. *)
Definition frame1 : Frame :=
  {| im_height := 100; im_width := 100;
     pixel := fun i j => [Z.of_nat i; Z.of_nat j] |}.

(** A box of positive size that lies wholly to the left of the frame. *)
Definition outside_left : RawDet :=
  (box (-100) 10 50 20, 5 # 10, "person"%string).

(** The first descriptor of [embeds1] alone: one descriptor for two
    detections. *)
Definition embeds_short : list Embed :=
  [ [1 # 10; 1 # 10; 1 # 10; 1 # 10] ]%Q.

(** A degenerate box next to a good one. *)
Definition detections_degenerate : list RawDet :=
  [ (box 0 0 0 50, 5 # 10, "person"%string);
    (box 50 50 50 50, 5 # 10, "person"%string) ].

(** An NMS routine that answers with the index one past the last box. *)
Definition helpers_bad_nms : Helpers := {|
  Embedder_predict := Embedder_predict (Helpers := helpers);
  non_max_suppression := fun boxes _ _ => [Z.of_nat (length boxes)]
|}.

(** A box that lies inside [frame1], and a box half a pixel wide. *)
Definition inside : RawDet := (box 10 20 30 40, 5 # 10, "person"%string).

Definition thin : RawDet :=
  (mkBox 10 20 (1 # 2) 40, 5 # 10, "person"%string).

(** Line 181-182, the second frame of the [__main__] block. *)
Definition detections2 : list RawDet :=
  [ (box 10 10 60 60, 8 # 10, "person"%string);
    (box 60 50 50 50, 7 # 10, "person"%string) ].

Definition embeds2 : list Embed :=
  [ [1 # 10; 1 # 10; 1 # 10; 1 # 10]; [- (11 # 10); 1; 1 # 2; - (1 # 2)] ]%Q.

End Demo.

(** * Properties *)

(** ** Python primitives *)

Lemma Qltb_true (x y : Q) : Py.Qltb x y = true <-> (x < y)%Q.
Proof.
  unfold Py.Qltb. rewrite negb_true_iff, <- not_true_iff_false, Qle_bool_iff.
  split; [apply Qnot_le_lt | apply Qlt_not_le].
Qed.

Lemma Qltb_false (x y : Q) : Py.Qltb x y = false <-> (y <= x)%Q.
Proof.
  unfold Py.Qltb. rewrite negb_false_iff. apply Qle_bool_iff.
Qed.

Lemma getitem_elem_of {A} (l : list A) (i : Z) (x : A) :
  Py.getitem l i = Some x -> x ∈ l.
Proof.
  unfold Py.getitem. intros Hx.
  destruct (_ && _); [by eapply list_elem_of_lookup_2|].
  destruct (_ && _); [by eapply list_elem_of_lookup_2|done].
Qed.

Lemma getitem_nonneg {A} (l : list A) (i : Z) :
  0 <= i < Z.of_nat (length l) -> Py.getitem l i = l !! Z.to_nat i.
Proof.
  intros [Hlo Hhi]. unfold Py.getitem.
  apply Z.leb_le in Hlo. apply Z.ltb_lt in Hhi. by rewrite Hlo, Hhi.
Qed.

Lemma mapM_getitem_elem_of {A} (l : list A) (idx : list Z) (kept : list A) :
  mapM (Py.getitem l) idx = Some kept -> Forall (fun x => x ∈ l) kept.
Proof.
  intros Hk. apply mapM_Some_1 in Hk.
  induction Hk as [|i x idx kept Hx _ IH]; constructor; [|done].
  by eapply getitem_elem_of.
Qed.

(** ** The size filter *)

Lemma positive_size_spec (d : RawDet) :
  positive_size d = true <-> (0 < bx_w d.1.1)%Q /\ (0 < bx_h d.1.1)%Q.
Proof.
  unfold positive_size. by rewrite andb_true_iff, !Qltb_true.
Qed.

Lemma elem_of_filter_raw_detections (raw : list RawDet) (d : RawDet) :
  d ∈ filter_raw_detections raw <-> d ∈ raw /\ positive_size d = true.
Proof.
  unfold filter_raw_detections.
  rewrite !list_elem_of_In, filter_In. done.
Qed.

Lemma filter_raw_detections_idemp (raw : list RawDet) :
  filter_raw_detections (filter_raw_detections raw) = filter_raw_detections raw.
Proof.
  unfold filter_raw_detections.
  induction raw as [|d raw IH]; [done|]. simpl.
  destruct (positive_size d) eqn:Hd; [|done]. simpl. by rewrite Hd, IH.
Qed.

Lemma filter_raw_detections_sublist (raw : list RawDet) :
  sublist (filter_raw_detections raw) raw.
Proof.
  unfold filter_raw_detections.
  induction raw as [|d raw IH]; [constructor|]. simpl.
  destruct (positive_size d); by constructor.
Qed.

(** ** [create_detections] *)

Lemma length_create_detections (raw_dets : list RawDet) (embeds : list Embed) :
  length (create_detections raw_dets embeds)
  = Nat.min (length raw_dets) (length embeds).
Proof.
  unfold create_detections. by rewrite length_fmap, length_zip_with.
Qed.

Lemma lookup_create_detections (raw_dets : list RawDet) (embeds : list Embed)
    (i : nat) :
  create_detections raw_dets embeds !! i
  = match raw_dets !! i, embeds !! i with
    | Some r, Some e => Some (mkDetection r.1.1 r.1.2 e r.2)
    | _, _ => None
    end.
Proof.
  unfold create_detections. rewrite list_lookup_fmap, lookup_zip_with.
  destruct (raw_dets !! i) as [r|]; [|done]. simpl.
  by destruct (embeds !! i).
Qed.

Lemma create_detections_boxes (raw_dets : list RawDet) (embeds : list Embed)
    (d : Detection) :
  d ∈ create_detections raw_dets embeds ->
  exists r, r ∈ raw_dets /\ tlwh d = r.1.1.
Proof.
  intros Hd. apply list_elem_of_lookup in Hd as [i Hi].
  rewrite lookup_create_detections in Hi.
  destruct (raw_dets !! i) as [r|] eqn:Hr; [|done].
  destruct (embeds !! i); [|done]. injection Hi as <-.
  exists r. split; [|done]. by eapply list_elem_of_lookup_2.
Qed.

Lemma create_detections_raw (raw_dets : list RawDet) (embeds : list Embed) :
  (fun d => (tlwh d, confidence d, class_name d))
    <$> create_detections raw_dets embeds
  = take (length embeds) raw_dets.
Proof.
  revert embeds.
  induction raw_dets as [|[[b c] n] raw IH]; intros [|e es]; try done.
  unfold create_detections in *. simpl. by rewrite IH.
Qed.

Lemma create_detections_features (raw_dets : list RawDet)
    (embeds : list Embed) :
  feature <$> create_detections raw_dets embeds
  = take (length raw_dets) embeds.
Proof.
  revert embeds.
  induction raw_dets as [|[[b c] n] raw IH]; intros [|e es]; try done.
  unfold create_detections in *. simpl. by rewrite IH.
Qed.

(** ** [update_tracks] *)

Section DeepSortFacts.

Context `{TrackerAPI} `{Helpers}.

Lemma select_run (detections : list Detection) (indices : list Z)
    (self : DeepSort) :
  select detections indices self
  = mkRun (match mapM (Py.getitem detections) indices with
           | Some kept => inr kept
           | None => inl IndexError
           end) self [].
Proof.
  induction indices as [|i indices IH]; [done|]. simpl.
  destruct (Py.getitem detections i) as [d|]; [|done]. simpl.
  unfold bind. rewrite IH. simpl.
  by destruct (mapM (Py.getitem detections) indices).
Qed.

Lemma update_tracks_unfolded_eq (raw_detections : list RawDet)
    (embeds : option (list Embed)) (frame : option Frame) (self : DeepSort) :
  update_tracks raw_detections embeds frame self
  = update_tracks_unfolded raw_detections embeds frame self.
Proof.
  unfold update_tracks, update_tracks_unfolded, after_embeds, generate_embeds,
    embedder_predict, call_nms, tracker_predict, tracker_update, with_tracker,
    bind, get, ret, raise.
  destruct embeds as [es|]; simpl.
  - destruct (Py.Qltb (nms_max_overlap self) 1); simpl; [|done].
    rewrite select_run. simpl. destruct (mapM _ _); reflexivity.
  - destruct (embedder self) as [e|] eqn:He; simpl; [|done].
    destruct frame as [f|]; simpl; [|done].
    rewrite He. simpl.
    destruct (Embedder_predict e _) as [msg|es]; simpl; [done|].
    destruct (Py.Qltb (nms_max_overlap self) 1); simpl; [|by rewrite He].
    rewrite select_run. simpl. destruct (mapM _ _); by rewrite ?He.
Qed.

(** Shared facts about the part of a run that follows the descriptors. *)

Lemma after_embeds_raise (raw : list RawDet) (self : DeepSort)
    (pre : list Call) (es : list Embed) (e : exn) :
  outcome (after_embeds raw self pre es) = inl e ->
  e = IndexError /\ self_after (after_embeds raw self pre es) = self.
Proof.
  unfold after_embeds.
  destruct (Py.Qltb _ _); simpl; [|done].
  destruct (mapM _ _); simpl; [done|]. by intros [= <-].
Qed.

Lemma after_embeds_success (raw : list RawDet) (self : DeepSort)
    (pre : list Call) (es : list Embed) (v : list Track) :
  outcome (after_embeds raw self pre es) = inr v ->
  exists detections,
    let t := Tracker_update (Tracker_predict (tracker self)) detections in
    v = tracks t
    /\ self_after (after_embeds raw self pre es) = with_tracker self t
    /\ tracker_calls (calls (after_embeds raw self pre es))
       = tracker_calls pre ++ [CallPredict; CallUpdate detections].
Proof.
  unfold after_embeds, tracker_calls.
  destruct (Py.Qltb _ _); simpl.
  - destruct (mapM _ _) as [kept|]; simpl; [|done]. intros [= <-].
    exists kept. by rewrite List.filter_app.
  - intros [= <-]. eexists. by rewrite List.filter_app.
Qed.

Lemma update_tracks_raise_unchanged (raw : list RawDet)
    (embeds : option (list Embed)) (frame : option Frame) (self : DeepSort)
    (e : exn) :
  outcome (update_tracks raw embeds frame self) = inl e ->
  self_after (update_tracks raw embeds frame self) = self.
Proof.
  rewrite update_tracks_unfolded_eq. unfold update_tracks_unfolded.
  destruct embeds as [es|]; [apply after_embeds_raise|].
  destruct (embedder self); [|done].
  destruct frame; [|done].
  destruct (Embedder_predict _ _); [done|]. apply after_embeds_raise.
Qed.

Lemma update_tracks_success (raw : list RawDet)
    (embeds : option (list Embed)) (frame : option Frame) (self : DeepSort)
    (v : list Track) :
  outcome (update_tracks raw embeds frame self) = inr v ->
  exists detections,
    let t := Tracker_update (Tracker_predict (tracker self)) detections in
    v = tracks t
    /\ self_after (update_tracks raw embeds frame self) = with_tracker self t
    /\ tracker_calls (calls (update_tracks raw embeds frame self))
       = [CallPredict; CallUpdate detections].
Proof.
  rewrite update_tracks_unfolded_eq. unfold update_tracks_unfolded.
  destruct embeds as [es|]; [apply after_embeds_success|].
  destruct (embedder self); [|done].
  destruct frame; [|done].
  destruct (Embedder_predict _ _); [done|]. apply after_embeds_success.
Qed.

Lemma after_embeds_calls_positive (raw : list RawDet) (self : DeepSort)
    (pre : list Call) (es : list Embed) (P : Call -> Prop) :
  Forall P pre ->
  (forall boxes o scores, Forall positive_box boxes -> P (CallNMS boxes o scores)) ->
  P CallPredict ->
  (forall ds, Forall (fun d => positive_box (tlwh d)) ds -> P (CallUpdate ds)) ->
  Forall P (calls (after_embeds (filter_raw_detections raw) self pre es)).
Proof.
  intros Hpre Hnms Hpred Hupd.
  assert (Hdets : Forall (fun d => positive_box (tlwh d))
                    (create_detections (filter_raw_detections raw) es)).
  { apply Forall_forall. intros d Hd.
    apply create_detections_boxes in Hd as (r & Hr & ->).
    apply elem_of_filter_raw_detections in Hr as [_ Hr].
    by apply positive_size_spec. }
  assert (Hboxes : Forall positive_box
                     (tlwh <$> create_detections (filter_raw_detections raw) es)).
  { by apply Forall_fmap. }
  unfold after_embeds.
  destruct (Py.Qltb _ _); simpl.
  - destruct (mapM _ _) as [kept|] eqn:Hk; simpl.
    + apply Forall_app. split; [done|].
      repeat constructor; [by apply Hnms|done|].
      apply Hupd. apply mapM_getitem_elem_of in Hk.
      rewrite Forall_forall in Hdets.
      eapply Forall_impl; [exact Hk|]. intros d Hd. by apply Hdets.
    + apply Forall_app. split; [done|]. repeat constructor. by apply Hnms.
  - apply Forall_app. split; [done|]. repeat constructor; [done|by apply Hupd].
Qed.

(** [__init__] stores the NMS threshold it is given (line 64). *)
Lemma init_nms_max_overlap max_age o max_cosine_distance nn_budget
    override_track_class clock use_embedder half bgr :
  nms_max_overlap (init max_age o max_cosine_distance nn_budget
                     override_track_class clock use_embedder half bgr) = o.
Proof. reflexivity. Qed.

(** Case analysis on which exception a run ends with: splits the goal,
    and closes the cases where the part after the descriptors would have to
    raise one of the two exceptions of the entry check. *)
Ltac config_error_cases :=
  simpl;
  repeat match goal with
  | |- _ /\ _ => split
  | |- _ <-> _ => split
  | |- _ -> _ => intro
  | H : _ /\ _ |- _ => destruct H
  | H : _ \/ _ |- _ => destruct H
  | H : outcome (after_embeds _ _ _ _) = inl _ |- _ =>
      apply after_embeds_raise in H as [? _]; discriminate
  end;
  try congruence; auto.

(** ** The claims about [update_tracks] and [refresh_track_ids] *)

(** C2: the size filter of line 106 goes through the raw detections one by
    one: an entry whose width and height are both strictly positive is kept,
    each occurrence in its place, and every other entry is dropped.  Nothing
    after the filter sees a dropped entry and everything after it sees the
    kept ones: the whole run (outcome, final object, calls) is the run on the
    filtered list; the embedder, when descriptors come from it, receives the
    crops of the filtered list, one per kept entry; the Detection objects
    are built from the filtered list, one per kept entry while descriptors
    last; the NMS routine (threshold below 1.0) receives the boxes and scores
    of exactly those objects, and [tracker.update] (threshold at 1.0 or
    above) receives exactly those objects, after [predict()]; and every box
    that reaches the NMS routine or [tracker.update] has positive width and
    height. *)
Theorem C2_degenerate_detections_discarded (raw : list RawDet)
    (embeds : option (list Embed)) (frame : option Frame) (self : DeepSort) :
  let run := update_tracks raw embeds frame self in
  let o := nms_max_overlap self in
  (filter_raw_detections [] = []
   /\ (forall d ds, positive_box d.1.1 ->
         filter_raw_detections (d :: ds) = d :: filter_raw_detections ds)
   /\ (forall d ds, ~ positive_box d.1.1 ->
         filter_raw_detections (d :: ds) = filter_raw_detections ds))
  /\ (forall d, d ∈ filter_raw_detections raw <-> d ∈ raw /\ positive_box d.1.1)
  /\ sublist (filter_raw_detections raw) raw
  /\ run = update_tracks (filter_raw_detections raw) embeds frame self
  /\ Forall (fun c =>
       match c with
       | CallEmbedder crops =>
           exists f, frame = Some f
                     /\ crops = crops_of f (filter_raw_detections raw)
       | CallNMS boxes _ _ => Forall positive_box boxes
       | CallPredict => True
       | CallUpdate ds => Forall (fun d => positive_box (tlwh d)) ds
       end) (calls run)
  /\ (forall es,
        descriptors_used raw embeds frame self = Some es ->
        let detections := create_detections (filter_raw_detections raw) es in
        (embeds = None ->
         exists f, frame = Some f
           /\ embedder_calls (calls run)
              = [crops_of f (filter_raw_detections raw)])
        /\ (length (filter_raw_detections raw) <= length es ->
            (fun d => (tlwh d, confidence d, class_name d)) <$> detections
            = filter_raw_detections raw)%nat
        /\ ((o < 1)%Q ->
            nms_calls (calls run)
            = [(tlwh <$> detections, o, confidence <$> detections)])
        /\ ((1 <= o)%Q ->
            update_calls (calls run) = [detections]
            /\ tracker_calls (calls run)
               = [CallPredict; CallUpdate detections]
            /\ tracker (self_after run)
               = Tracker_update (Tracker_predict (tracker self)) detections)).
Proof.
  simpl. split; [|split; [|split; [|split; [|split]]]].
  - split; [done|]. unfold filter_raw_detections. split; intros d ds Hd; simpl.
    + apply positive_size_spec in Hd. by rewrite Hd.
    + destruct (positive_size d) eqn:Hp; [|done].
      by apply positive_size_spec in Hp.
  - intros d. rewrite elem_of_filter_raw_detections, positive_size_spec. done.
  - apply filter_raw_detections_sublist.
  - rewrite !update_tracks_unfolded_eq. unfold update_tracks_unfolded.
    by rewrite filter_raw_detections_idemp.
  - rewrite update_tracks_unfolded_eq. unfold update_tracks_unfolded.
    destruct embeds as [es|].
    { by apply after_embeds_calls_positive. }
    destruct (embedder self); [|by constructor].
    destruct frame as [f|]; [|by constructor]. simpl.
    destruct (Embedder_predict _ _).
    { repeat constructor. by exists f. }
    apply after_embeds_calls_positive; try done.
    repeat constructor. by exists f.
  - intros es Hes.
    assert (Hrun : exists pre,
      nms_calls pre = [] /\ update_calls pre = [] /\ tracker_calls pre = []
      /\ (embeds = None ->
          exists f, frame = Some f
            /\ embedder_calls pre = [crops_of f (filter_raw_detections raw)])
      /\ update_tracks raw embeds frame self
         = after_embeds (filter_raw_detections raw) self pre es).
    { rewrite update_tracks_unfolded_eq.
      unfold update_tracks_unfolded, descriptors_used in *.
      destruct embeds as [es'|]; [injection Hes as ->; by exists []|].
      destruct (embedder self); [|done].
      destruct frame as [f|]; [|done].
      destruct (Embedder_predict _ _); [done|]. injection Hes as ->.
      exists [CallEmbedder (crops_of f (filter_raw_detections raw))].
      repeat split; try done. intros _. by exists f. }
    destruct Hrun as (pre & Hn & Hu & Ht & He & ->).
    split; [|split; [|split]].
    + intros Hnone. destruct (He Hnone) as (f & Hf & Hpre).
      exists f. split; [done|].
      unfold after_embeds, embedder_calls in *.
      destruct (Py.Qltb _ _); [destruct (mapM _ _)|]; simpl;
        by rewrite omap_app, Hpre.
    + intros Hlen. rewrite create_detections_raw. by apply take_ge.
    + intros Ho. apply Qltb_true in Ho.
      unfold after_embeds, nms_calls in *. rewrite Ho.
      destruct (mapM _ _); simpl; by rewrite omap_app, Hn.
    + intros Ho. apply Qltb_false in Ho.
      unfold after_embeds, update_calls, tracker_calls in *. rewrite Ho. simpl.
      by rewrite omap_app, List.filter_app, Hu, Ht.
Qed.

(** C4: [update_tracks] raises the exception of line 102 exactly when no
    descriptors are supplied and no embedder was created, and the exception
    of line 104 exactly when no descriptors are supplied, an embedder exists
    and no frame is supplied; so it raises one of the two exactly when
    [embeds is None] and ([self.embedder is None] or [frame is None]).  The
    embedder is missing exactly when [__init__] was called with
    [embedder=False]. *)
Theorem C4_missing_input_raises (raw : list RawDet)
    (embeds : option (list Embed)) (frame : option Frame) (self : DeepSort) :
  let run := update_tracks raw embeds frame self in
  (outcome run = inl EmbedderNotCreated
     <-> embeds = None /\ embedder self = None)
  /\ (outcome run = inl EmbeddingsOrFrameMissing
     <-> embeds = None /\ embedder self <> None /\ frame = None)
  /\ (outcome run = inl EmbedderNotCreated
      \/ outcome run = inl EmbeddingsOrFrameMissing
     <-> embeds = None /\ (embedder self = None \/ frame = None))
  /\ (forall max_age o max_cosine_distance nn_budget override_track_class
         clock use_embedder half bgr,
       embedder (init max_age o max_cosine_distance nn_budget
                   override_track_class clock use_embedder half bgr) = None
       <-> use_embedder = false).
Proof.
  simpl. rewrite update_tracks_unfolded_eq. unfold update_tracks_unfolded.
  match goal with
  | |- ?A /\ ?B /\ ?C /\ _ =>
      cut (A /\ B /\ C);
      [intros (? & ? & ?); split_and!; [done..|];
       intros ? ? ? ? ? ? use_embedder ? ?; by destruct use_embedder|]
  end.
  destruct embeds as [es|]; [config_error_cases|].
  destruct (embedder self) as [e|]; [|config_error_cases].
  destruct frame as [f|]; [|config_error_cases].
  destruct (Embedder_predict _ _) as [msg|es]; config_error_cases.
Qed.

(** C5: when [update_tracks] raises for missing descriptors, embedder or
    frame (lines 102 and 104), the object is exactly what it was before the
    call, tracker, tracks and identifier counter included, and no
    collaborator has been called. *)
Theorem C5_raise_leaves_state_untouched (raw : list RawDet)
    (embeds : option (list Embed)) (frame : option Frame) (self : DeepSort)
    (e : exn) :
  outcome (update_tracks raw embeds frame self) = inl e ->
  e = EmbedderNotCreated \/ e = EmbeddingsOrFrameMissing ->
  self_after (update_tracks raw embeds frame self) = self
  /\ tracker (self_after (update_tracks raw embeds frame self)) = tracker self
  /\ calls (update_tracks raw embeds frame self) = [].
Proof.
  intros Hr He.
  assert (Hself := update_tracks_raise_unchanged _ _ _ _ _ Hr).
  split; [done|]. split; [by rewrite Hself|].
  revert Hr. rewrite update_tracks_unfolded_eq. unfold update_tracks_unfolded.
  destruct embeds as [es|].
  { intros Hr. apply after_embeds_raise in Hr as [-> _]. by destruct He. }
  destruct (embedder self); [|done].
  destruct frame; [|done].
  destruct (Embedder_predict _ _); simpl.
  { intros [= <-]. by destruct He. }
  intros Hr. apply after_embeds_raise in Hr as [-> _]. by destruct He.
Qed.

(** C6: with the threshold at 1.0 or above the NMS routine is never
    called.  When the call gets as far as building its Detection objects, let
    [detections] be the objects built from the filtered raw detections and
    the descriptors in use: with the threshold at 1.0 or above
    [tracker.update] receives [detections] itself; with the threshold below
    1.0 the NMS routine is called once, on the boxes and scores of
    [detections], and [tracker.update] receives
    [[detections[i] for i in indices]] for the indices it returns. *)
Theorem C6_nms_step (raw : list RawDet) (embeds : option (list Embed))
    (frame : option Frame) (self : DeepSort) :
  let run := update_tracks raw embeds frame self in
  let o := nms_max_overlap self in
  ((1 <= o)%Q -> nms_calls (calls run) = [])
  /\ forall es,
       descriptors_used raw embeds frame self = Some es ->
       let detections := create_detections (filter_raw_detections raw) es in
       let boxes := tlwh <$> detections in
       let scores := confidence <$> detections in
       ((1 <= o)%Q -> update_calls (calls run) = [detections])
       /\ ((o < 1)%Q ->
           nms_calls (calls run) = [(boxes, o, scores)]
           /\ forall kept,
                mapM (Py.getitem detections)
                  (non_max_suppression boxes o scores) = Some kept ->
                update_calls (calls run) = [kept]).
Proof.
  simpl. split.
  - intros Ho. apply Qltb_false in Ho.
    rewrite update_tracks_unfolded_eq.
    unfold update_tracks_unfolded, after_embeds. rewrite Ho.
    destruct embeds as [es|]; [done|].
    destruct (embedder self); [|done].
    destruct frame; [|done].
    by destruct (Embedder_predict _ _).
  - intros es Hes.
    assert (Hrun : exists pre,
      nms_calls pre = [] /\ update_calls pre = []
      /\ update_tracks raw embeds frame self
         = after_embeds (filter_raw_detections raw) self pre es).
    { rewrite update_tracks_unfolded_eq.
      unfold update_tracks_unfolded, descriptors_used in *.
      destruct embeds as [es'|]; [injection Hes as ->; by exists []|].
      destruct (embedder self); [|done].
      destruct frame as [f|]; [|done].
      destruct (Embedder_predict _ _); [done|]. injection Hes as ->.
      by exists [CallEmbedder (crops_of f (filter_raw_detections raw))]. }
    destruct Hrun as (pre & Hn & Hu & ->).
    unfold after_embeds, nms_calls, update_calls in *.
    split.
    + intros Ho. apply Qltb_false in Ho. rewrite Ho. simpl.
      rewrite !omap_app, Hu. done.
    + intros Ho. apply Qltb_true in Ho. rewrite Ho.
      destruct (mapM _ _) as [kept|]; simpl; rewrite !omap_app, Hn, ?Hu.
      * split; [done|]. by intros ? [= <-].
      * done.
Qed.

(** C8: a call to [update_tracks] that returns has called the tracker
    exactly twice: [predict()] once, then [update(detections)] once; the
    tracker it leaves is the one [update] makes of the predicted tracker. *)
Theorem C8_predict_once_then_update_once (raw : list RawDet)
    (embeds : option (list Embed)) (frame : option Frame) (self : DeepSort)
    (v : list Track) :
  outcome (update_tracks raw embeds frame self) = inr v ->
  exists detections,
    tracker_calls (calls (update_tracks raw embeds frame self))
      = [CallPredict; CallUpdate detections]
    /\ tracker (self_after (update_tracks raw embeds frame self))
       = Tracker_update (Tracker_predict (tracker self)) detections.
Proof.
  intros Hr. apply update_tracks_success in Hr as (ds & _ & Hs & Hc).
  exists ds. split; [done|]. by rewrite Hs.
Qed.

(** C10: [refresh_track_ids] returns [None], leaves the object as it was
    (tracker, tracks and identifier counter included) and calls no
    collaborator. *)
Theorem C10_refresh_track_ids_no_effect (self : DeepSort) :
  refresh_track_ids self = mkRun (inr tt) self []
  /\ _next_id (tracker (self_after (refresh_track_ids self)))
     = _next_id (tracker self).
Proof. done. Qed.

(** C3 (as amended): with descriptors supplied, [update_tracks] compares no
    counts.  The filtered detections and the descriptors are paired by
    position up to the shorter of the two lists; with the NMS threshold at
    1.0 or above the call returns, having run predict and update on those
    paired detections; and the only exception a call with supplied
    descriptors can raise is the [IndexError] of the selection after NMS. *)
Theorem C3_count_mismatch_truncates (raw : list RawDet) (es : list Embed)
    (frame : option Frame) (self : DeepSort) :
  let run := update_tracks raw (Some es) frame self in
  let detections := create_detections (filter_raw_detections raw) es in
  let t := Tracker_update (Tracker_predict (tracker self)) detections in
  length detections
    = Nat.min (length (filter_raw_detections raw)) (length es)
  /\ ((1 <= nms_max_overlap self)%Q ->
      run = mkRun (inr (tracks t)) (with_tracker self t)
              [CallPredict; CallUpdate detections])
  /\ (forall e, outcome run = inl e -> e = IndexError).
Proof.
  simpl. split; [apply length_create_detections|].
  rewrite update_tracks_unfolded_eq. unfold update_tracks_unfolded.
  split.
  - intros Ho. apply Qltb_false in Ho. unfold after_embeds. by rewrite Ho.
  - intros e Hr. by apply after_embeds_raise in Hr as [-> _].
Qed.

End DeepSortFacts.

(** ** The tracker of the specification *)

Section TrackerSpecFacts.

Context {Motion : Type}.
Variable motion_initiate : Box -> Motion.
Variable motion_predict : Motion -> Motion.
Variable motion_correct : Motion -> Box -> Motion.
Variable solve : @TrackerSpec.Tracker Motion -> list Detection ->
  list (nat * nat) * list nat * list nat.
Variable n_init0 : Z.
Context `{Helpers}.

Local Abbreviation spec_api :=
  (TrackerSpec.api motion_initiate motion_predict motion_correct solve n_init0).

(** Garbage collection is the last step of an update: what it leaves holds
    no Deleted track. *)
Lemma update_leaves_no_deleted (t : TrackerSpec.Tracker)
    (detections : list Detection) :
  Forall (fun k => TrackerSpec.state k <> TrackerSpec.Deleted)
    (TrackerSpec.tracks
       (TrackerSpec.update motion_initiate motion_correct solve t detections)).
Proof.
  unfold TrackerSpec.update.
  destruct (TrackerSpec.associate _ _ _) as [[matches ut] ud].
  destruct (foldl _ _ ud) as [spawned next]. simpl.
  apply Forall_forall. intros k Hk.
  apply list_elem_of_In, filter_In in Hk as [_ Hk].
  unfold TrackerSpec.is_deleted in Hk. by destruct (TrackerSpec.state k).
Qed.

(** C1: a call to [update_tracks] that returns, returns the list
    [tracker.tracks] of the tracker as the call leaves it, and every track in
    that list is Confirmed or Tentative: none is Deleted. *)
Theorem C1_returns_live_tracks (raw : list RawDet)
    (embeds : option (list Embed)) (frame : option Frame)
    (self : @DeepSort spec_api) (v : list TrackerSpec.Track) :
  outcome (update_tracks raw embeds frame self) = inr v ->
  v = TrackerSpec.tracks
        (tracker (self_after (update_tracks raw embeds frame self)))
  /\ Forall (fun k => TrackerSpec.state k = TrackerSpec.Confirmed
                      \/ TrackerSpec.state k = TrackerSpec.Tentative) v
  /\ ~ exists k, k ∈ v /\ TrackerSpec.state k = TrackerSpec.Deleted.
Proof.
  intros Hr.
  apply (@update_tracks_success spec_api _) in Hr as (ds & -> & Hs & _).
  rewrite Hs. simpl.
  pose proof (update_leaves_no_deleted
                (TrackerSpec.predict motion_predict (tracker self)) ds) as Hlive.
  split; [done|]. split.
  - eapply Forall_impl; [exact Hlive|]. intros k Hk.
    destruct (TrackerSpec.state k) eqn:Ek; [by right|by left|].
    exfalso. apply Hk. exact Ek.
  - intros (k & Hk & Hd). rewrite Forall_forall in Hlive. by apply (Hlive k).
Qed.

End TrackerSpecFacts.

(** ** [create_detections] and the crops of [generate_embeds] *)

(** C7: [create_detections] pairs by position: wherever both the i-th raw
    detection and the i-th descriptor exist, the i-th Detection is built from
    that detection's box, confidence and class and from that descriptor;
    every Detection arises so; the output is as long as the shorter input,
    hence as long as the input when the counts agree. *)
Theorem C7_create_detections_positional (raw_dets : list RawDet)
    (embeds : list Embed) :
  (forall i r e,
     raw_dets !! i = Some r -> embeds !! i = Some e ->
     create_detections raw_dets embeds !! i
     = Some (mkDetection r.1.1 r.1.2 e r.2))
  /\ (forall i d,
     create_detections raw_dets embeds !! i = Some d ->
     exists r e, raw_dets !! i = Some r /\ embeds !! i = Some e
                 /\ d = mkDetection r.1.1 r.1.2 e r.2)
  /\ length (create_detections raw_dets embeds)
     = Nat.min (length raw_dets) (length embeds)
  /\ (length raw_dets = length embeds ->
      length (create_detections raw_dets embeds) = length raw_dets).
Proof.
  split; [|split; [|split]].
  - intros i r e Hr He. by rewrite lookup_create_detections, Hr, He.
  - intros i d. rewrite lookup_create_detections.
    destruct (raw_dets !! i) as [r|]; [|done].
    destruct (embeds !! i) as [e|]; [|done].
    intros [= <-]. by exists r, e.
  - apply length_create_detections.
  - intros Hlen. rewrite length_create_detections. lia.
Qed.

(** X14: where the box ends at or after the first row and the first column
    ([t + h >= 0] and [l + w >= 0]) the crop is the clipped region: same
    shape, same pixels. *)
Lemma detection_crop_clipped (frame : Frame) (detection : RawDet) :
  0 <= Py.int (bx_l detection.1.1) + Py.int (bx_w detection.1.1) ->
  0 <= Py.int (bx_t detection.1.1) + Py.int (bx_h detection.1.1) ->
  let c := detection_crop frame detection in
  let c' := clipped_region frame detection in
  im_height c = im_height c' /\ im_width c = im_width c'
  /\ forall i j, (i < im_height c)%nat -> (j < im_width c)%nat ->
       pixel c i j = pixel c' i j.
Proof.
  intros Hr Hb.
  unfold detection_crop, clipped_region, crop, Py.slice_indices,
    Py.adjust_index. simpl.
  repeat match goal with
         | |- context [?a <? ?b] => destruct (Z.ltb_spec a b)
         end; try lia.
  split; [lia|]. split; [lia|].
  intros i j Hi Hj. f_equal; lia.
Qed.

(** ** Runs on the concrete inputs *)

Section ConcreteRuns.

#[local] Existing Instance Demo.tracker_api.
#[local] Existing Instance Demo.helpers.

(** C9: the crop of [generate_embeds] is not always the clipped region.  On
    a frame of 100 rows and 100 columns, the box [[-100, 10, 50, 20]] (of
    positive size, wholly left of the frame) gives [crop_r = min(100, -50) =
    -50], a slice bound below 0; the slice [frame[10:30, 0:-50]] counts it
    from the right edge, so the crop has 20 rows and 50 columns and starts at
    row 10, column 0 of the frame, where the clipped region of that box has
    no column at all.  [update_tracks] hands that crop to the embedder. *)
Theorem C9_crop_wraps_left_of_frame :
  positive_size Demo.outside_left = true
  /\ Z.min (Z.of_nat (im_width Demo.frame1))
       (Py.int (bx_l Demo.outside_left.1.1)
        + Py.int (bx_w Demo.outside_left.1.1)) = -50
  /\ im_height (detection_crop Demo.frame1 Demo.outside_left) = 20%nat
  /\ im_width (detection_crop Demo.frame1 Demo.outside_left) = 50%nat
  /\ pixel (detection_crop Demo.frame1 Demo.outside_left) 0 0
     = pixel Demo.frame1 10 0
  /\ im_width (clipped_region Demo.frame1 Demo.outside_left) = 0%nat
  /\ head (calls (update_tracks [Demo.outside_left] None (Some Demo.frame1)
                    Demo.tracker_emb))
     = Some (CallEmbedder [detection_crop Demo.frame1 Demo.outside_left]).
Proof.
  split; [reflexivity|]. split; [reflexivity|].
  split; [reflexivity|]. split; [reflexivity|].
  split; [reflexivity|]. split; reflexivity.
Qed.

(** The first call of the [__main__] block returns its two new tracks. *)
Lemma C1_witness :
  let run := update_tracks Demo.detections1 (Some Demo.embeds1) None
               Demo.tracker0 in
  length (tracks (tracker (self_after run))) = 2%nat
  /\ exists v, outcome run = inr v
     /\ (v = tracks (tracker (self_after run))
         /\ Forall (fun k => TrackerSpec.state k = TrackerSpec.Confirmed
                             \/ TrackerSpec.state k = TrackerSpec.Tentative) v
         /\ ~ exists k, k ∈ v /\ TrackerSpec.state k = TrackerSpec.Deleted).
Proof.
  split; [reflexivity|]. eexists. split; [reflexivity|].
  apply (C1_returns_live_tracks (fun b => b) (fun m => m) (fun _ b => b)
           _ 3 Demo.detections1 (Some Demo.embeds1) None Demo.tracker0).
  reflexivity.
Defined.

(** A degenerate detection followed by a good one: the filter keeps the
    good one alone, and [tracker.update] receives the one Detection built
    from it. *)
Lemma C2_witness :
  let run := update_tracks Demo.detections_degenerate (Some Demo.embeds1) None
               Demo.tracker0 in
  let kept := [(Demo.box 50 50 50 50, 5 # 10, "person"%string)] in
  descriptors_used Demo.detections_degenerate (Some Demo.embeds1) None
    Demo.tracker0 = Some Demo.embeds1
  /\ (1 <= nms_max_overlap Demo.tracker0)%Q
  /\ (length kept <= length Demo.embeds1)%nat
  /\ filter_raw_detections Demo.detections_degenerate = kept
  /\ update_calls (calls run) = [create_detections kept Demo.embeds1]
  /\ (fun d => (tlwh d, confidence d, class_name d))
       <$> create_detections kept Demo.embeds1 = kept.
Proof.
  assert (Ho : (1 <= nms_max_overlap Demo.tracker0)%Q) by discriminate.
  assert (Hlen : (length (filter_raw_detections Demo.detections_degenerate)
                  <= length Demo.embeds1)%nat) by (vm_compute; lia).
  destruct (C2_degenerate_detections_discarded Demo.detections_degenerate
              (Some Demo.embeds1) None Demo.tracker0)
    as (_ & _ & _ & _ & _ & Hpass).
  destruct (Hpass Demo.embeds1 eq_refl) as (_ & Hback & _ & Hupd).
  split; [reflexivity|]. split; [exact Ho|]. split; [exact Hlen|].
  split; [reflexivity|]. split; [exact (proj1 (Hupd Ho))|exact (Hback Hlen)].
Defined.

(** One descriptor for two detections: the call is not rejected; it returns
    and leaves a tracker with a new track. *)
Lemma C3_counterexample :
  let run := update_tracks Demo.detections1 (Some Demo.embeds_short) None
               Demo.tracker0 in
  length (filter_raw_detections Demo.detections1) = 2%nat
  /\ length Demo.embeds_short = 1%nat
  /\ (exists v, outcome run = inr v)
  /\ length (tracks (tracker Demo.tracker0)) = 0%nat
  /\ length (tracks (tracker (self_after run))) = 1%nat
  /\ self_after run <> Demo.tracker0.
Proof.
  repeat split; try reflexivity.
  - eexists. reflexivity.
  - intros Heq.
    apply (f_equal (fun s => length (tracks (tracker s)))) in Heq.
    discriminate Heq.
Qed.

Lemma C3_witness :
  (1 <= nms_max_overlap Demo.tracker0)%Q
  /\ update_tracks Demo.detections1 (Some Demo.embeds_short) None Demo.tracker0
     = (let ds := create_detections (filter_raw_detections Demo.detections1)
                    Demo.embeds_short in
        let t := Tracker_update (Tracker_predict (tracker Demo.tracker0)) ds in
        mkRun (inr (tracks t)) (with_tracker Demo.tracker0 t)
          [CallPredict; CallUpdate ds]).
Proof.
  assert (Ho : (1 <= nms_max_overlap Demo.tracker0)%Q) by discriminate.
  split; [exact Ho|].
  exact (proj1 (proj2 (C3_count_mismatch_truncates Demo.detections1
                         Demo.embeds_short None Demo.tracker0)) Ho).
Defined.

(** No descriptors and no embedder: the call raises and nothing changes. *)
Lemma C5_witness :
  let run := update_tracks Demo.detections1 None (Some Demo.frame1)
               Demo.tracker0 in
  outcome run = inl EmbedderNotCreated
  /\ (self_after run = Demo.tracker0
      /\ tracker (self_after run) = tracker Demo.tracker0
      /\ calls run = []).
Proof.
  split; [reflexivity|].
  apply (C5_raise_leaves_state_untouched Demo.detections1 None
           (Some Demo.frame1) Demo.tracker0 EmbedderNotCreated);
    [reflexivity | left; reflexivity].
Defined.

(** Suppression switched on: the NMS routine is called once and the tracker
    receives the detections at the indices it returns. *)
Lemma C6_witness :
  let run := update_tracks Demo.detections1 (Some Demo.embeds1) None
               Demo.tracker_nms in
  let ds := create_detections (filter_raw_detections Demo.detections1)
              Demo.embeds1 in
  descriptors_used Demo.detections1 (Some Demo.embeds1) None Demo.tracker_nms
    = Some Demo.embeds1
  /\ (nms_max_overlap Demo.tracker_nms < 1)%Q
  /\ mapM (Py.getitem ds)
       (non_max_suppression (tlwh <$> ds) (nms_max_overlap Demo.tracker_nms)
          (confidence <$> ds)) = Some ds
  /\ nms_calls (calls run)
     = [(tlwh <$> ds, nms_max_overlap Demo.tracker_nms, confidence <$> ds)]
  /\ update_calls (calls run) = [ds].
Proof.
  assert (Ho : (nms_max_overlap Demo.tracker_nms < 1)%Q) by reflexivity.
  split; [reflexivity|]. split; [exact Ho|]. split; [reflexivity|].
  destruct (proj2 (proj2 (C6_nms_step Demo.detections1 (Some Demo.embeds1)
                            None Demo.tracker_nms) Demo.embeds1 eq_refl) Ho)
    as [Hn Hu].
  split; [exact Hn|]. apply Hu. reflexivity.
Defined.

(** Equal counts: as many Detection objects as raw detections. *)
Lemma C7_witness :
  length Demo.detections1 = length Demo.embeds1
  /\ length (create_detections Demo.detections1 Demo.embeds1)
     = length Demo.detections1.
Proof.
  split; [reflexivity|].
  apply (C7_create_detections_positional Demo.detections1 Demo.embeds1).
  reflexivity.
Defined.

(** A call with the built-in embedder and a frame: it returns after one
    predict and one update. *)
Lemma C8_witness :
  let run := update_tracks Demo.detections1 None (Some Demo.frame1)
               Demo.tracker_emb in
  (exists v, outcome run = inr v)
  /\ exists detections,
       tracker_calls (calls run) = [CallPredict; CallUpdate detections]
       /\ tracker (self_after run)
          = Tracker_update (Tracker_predict (tracker Demo.tracker_emb))
              detections.
Proof.
  split; [eexists; reflexivity|].
  eapply (C8_predict_once_then_update_once Demo.detections1 None
            (Some Demo.frame1) Demo.tracker_emb).
  reflexivity.
Defined.

(** The size filter drops raw detections but not their descriptors: with one
    descriptor per raw detection supplied and the first detection degenerate,
    the surviving second detection is paired with the first descriptor. *)
Lemma supplied_descriptors_shift_after_filter :
  length Demo.detections_degenerate = length Demo.embeds1
  /\ update_calls
       (calls (update_tracks Demo.detections_degenerate (Some Demo.embeds1)
                 None Demo.tracker0))
     = [[mkDetection (Demo.box 50 50 50 50) (5 # 10)
           [1 # 10; 1 # 10; 1 # 10; 1 # 10]%Q "person"]].
Proof. split; reflexivity. Qed.

End ConcreteRuns.

(** * Further properties of the wrapper *)

(** ** Python indexing *)

Lemma getitem_is_Some {A} (l : list A) (i : Z) :
  is_Some (Py.getitem l i)
  <-> - Z.of_nat (length l) <= i < Z.of_nat (length l).
Proof.
  unfold Py.getitem.
  destruct (Z.leb_spec 0 i), (Z.ltb_spec i (Z.of_nat (length l))); simpl.
  - rewrite lookup_lt_is_Some. lia.
  - destruct (Z.leb_spec (- Z.of_nat (length l)) i), (Z.ltb_spec i 0);
      simpl; rewrite ?lookup_lt_is_Some, <- ?not_eq_None_Some; try lia;
      split; try lia; try done.
  - destruct (Z.leb_spec (- Z.of_nat (length l)) i), (Z.ltb_spec i 0);
      simpl; rewrite ?lookup_lt_is_Some, <- ?not_eq_None_Some; try lia;
      split; try lia; try done.
  - destruct (Z.leb_spec (- Z.of_nat (length l)) i), (Z.ltb_spec i 0);
      simpl; rewrite ?lookup_lt_is_Some, <- ?not_eq_None_Some; try lia;
      split; try lia; try done.
Qed.

Lemma mapM_getitem_is_Some {A} (l : list A) (idx : list Z) :
  is_Some (mapM (Py.getitem l) idx)
  <-> Forall (fun i => - Z.of_nat (length l) <= i < Z.of_nat (length l)) idx.
Proof.
  rewrite mapM_is_Some. apply Forall_proper; [|done].
  intros i. apply getitem_is_Some.
Qed.

(** ** Runs of [update_tracks] by case *)

Section UpdateTracksCases.

Context `{TrackerAPI} `{Helpers}.

(** The calls made before the Detection objects are built. *)
Lemma update_tracks_with_descriptors (raw : list RawDet)
    (embeds : option (list Embed)) (frame : option Frame) (self : DeepSort)
    (es : list Embed) :
  descriptors_used raw embeds frame self = Some es ->
  update_tracks raw embeds frame self
  = after_embeds (filter_raw_detections raw) self
      (match embeds, frame with
       | None, Some f => [CallEmbedder (crops_of f (filter_raw_detections raw))]
       | _, _ => []
       end) es.
Proof.
  rewrite update_tracks_unfolded_eq.
  unfold update_tracks_unfolded, descriptors_used.
  destruct embeds as [es'|]; [by intros [= ->]|].
  destruct (embedder self); [|done].
  destruct frame as [f|]; [|done].
  destruct (Embedder_predict _ _); [done|]. by intros [= ->].
Qed.

Lemma update_tracks_without_descriptors (raw : list RawDet)
    (embeds : option (list Embed)) (frame : option Frame) (self : DeepSort) :
  descriptors_used raw embeds frame self = None ->
  exists e cs,
    update_tracks raw embeds frame self = mkRun (inl e) self cs
    /\ e <> IndexError
    /\ tracker_calls cs = [] /\ nms_calls cs = [] /\ update_calls cs = [].
Proof.
  rewrite update_tracks_unfolded_eq.
  unfold update_tracks_unfolded, descriptors_used.
  destruct embeds as [es'|]; [done|].
  destruct (embedder self); [|by eexists _, _].
  destruct frame as [f|]; [|by eexists _, _].
  destruct (Embedder_predict _ _); [|done]. by eexists _, _.
Qed.

Lemma after_embeds_outcome (raw : list RawDet) (self : DeepSort)
    (pre : list Call) (es : list Embed) :
  let detections := create_detections raw es in
  let o := nms_max_overlap self in
  outcome (after_embeds raw self pre es)
  = if Py.Qltb o 1
    then match mapM (Py.getitem detections)
                 (non_max_suppression (tlwh <$> detections) o
                    (confidence <$> detections)) with
         | Some kept =>
             inr (tracks (Tracker_update (Tracker_predict (tracker self)) kept))
         | None => inl IndexError
         end
    else inr (tracks (Tracker_update (Tracker_predict (tracker self))
                        detections)).
Proof.
  simpl. unfold after_embeds.
  destruct (Py.Qltb _ _); [|done]. by destruct (mapM _ _).
Qed.

(** X1: [update_tracks] never ends with the [AttributeError] of an
    attribute read on [None]: the entry check of lines 100-104 lets
    [generate_embeds] run only with an embedder and a frame, whereas
    [generate_embeds] called on its own without a frame does end with it. *)
Theorem update_tracks_never_attribute_error (raw : list RawDet)
    (embeds : option (list Embed)) (frame : option Frame) (self : DeepSort) :
  outcome (update_tracks raw embeds frame self) <> inl AttributeError
  /\ outcome (generate_embeds None raw self) = inl AttributeError.
Proof.
  split; [|done].
  rewrite update_tracks_unfolded_eq. unfold update_tracks_unfolded.
  destruct embeds as [es|].
  { intros Hr. by apply after_embeds_raise in Hr as [? _]. }
  destruct (embedder self); [|done].
  destruct frame; [|done].
  destruct (Embedder_predict _ _) as [msg|es]; [done|].
  intros Hr. by apply after_embeds_raise in Hr as [? _].
Qed.

(** X2: [update_tracks] ends with [IndexError] exactly when the descriptors
    are available, the threshold is below 1.0 and the NMS routine returns an
    index outside [-n .. n-1], [n] being the number of Detection objects. *)
Theorem update_tracks_index_error_iff (raw : list RawDet)
    (embeds : option (list Embed)) (frame : option Frame) (self : DeepSort) :
  outcome (update_tracks raw embeds frame self) = inl IndexError
  <-> exists es,
        descriptors_used raw embeds frame self = Some es
        /\ (nms_max_overlap self < 1)%Q
        /\ let detections := create_detections (filter_raw_detections raw) es in
           let n := Z.of_nat (length detections) in
           exists i,
             i ∈ non_max_suppression (tlwh <$> detections)
                   (nms_max_overlap self) (confidence <$> detections)
             /\ ~ (- n <= i < n).
Proof.
  destruct (descriptors_used raw embeds frame self) as [es|] eqn:Hes.
  - rewrite (update_tracks_with_descriptors _ _ _ _ _ Hes), after_embeds_outcome.
    simpl. split.
    + destruct (Py.Qltb _ _) eqn:Ho; [|done].
      destruct (mapM _ _) eqn:Hm; [done|]. intros _.
      exists es. split; [done|]. split; [by apply Qltb_true|].
      apply mapM_None, Exists_exists in Hm as (i & Hi & Hn).
      exists i. split; [done|]. rewrite <- getitem_is_Some, Hn.
      by intros [? ?].
    + intros (es' & [= <-] & Ho & i & Hi & Hn).
      apply Qltb_true in Ho. rewrite Ho.
      destruct (mapM _ _) eqn:Hm; [|done]. exfalso. apply Hn.
      assert (Hs : is_Some (mapM (Py.getitem
                (create_detections (filter_raw_detections raw) es))
                (non_max_suppression
                   (tlwh <$> create_detections (filter_raw_detections raw) es)
                   (nms_max_overlap self)
                   (confidence <$>
                      create_detections (filter_raw_detections raw) es))))
        by (rewrite Hm; eauto).
      apply mapM_getitem_is_Some in Hs. rewrite Forall_forall in Hs.
      by apply Hs.
  - destruct (update_tracks_without_descriptors _ _ _ _ Hes)
      as (e & cs & -> & He & _).
    simpl. split; [congruence|]. by intros (? & ? & _).
Qed.

(** X3: [update_tracks] ends with an exception of the embedder exactly when
    no descriptors are supplied, an embedder and a frame are there, and the
    embedder raises it on the crops of the filtered detections; the embedder
    call is then the only collaborator call of the run. *)
Theorem update_tracks_embedder_exception (raw : list RawDet)
    (embeds : option (list Embed)) (frame : option Frame) (self : DeepSort)
    (msg : string) :
  (outcome (update_tracks raw embeds frame self) = inl (Raised msg)
   <-> embeds = None
       /\ exists e f, embedder self = Some e /\ frame = Some f
            /\ Embedder_predict e (crops_of f (filter_raw_detections raw))
               = inl msg)
  /\ (forall f,
        outcome (update_tracks raw embeds frame self) = inl (Raised msg) ->
        frame = Some f ->
        calls (update_tracks raw embeds frame self)
        = [CallEmbedder (crops_of f (filter_raw_detections raw))]).
Proof.
  rewrite update_tracks_unfolded_eq. unfold update_tracks_unfolded.
  destruct embeds as [es|].
  { split; [split|].
    - intros Hr. by apply after_embeds_raise in Hr as [? _].
    - by intros [? _].
    - intros f Hr. by apply after_embeds_raise in Hr as [? _]. }
  destruct (embedder self) as [e|].
  2:{ split; [split|]; [done| |done]. by intros (_ & ? & ? & ? & _). }
  destruct frame as [f|].
  2:{ split; [split|]; [done| |done]. by intros (_ & ? & ? & _ & ? & _). }
  destruct (Embedder_predict _ _) as [msg'|es] eqn:Hp; simpl.
  - split; [split|].
    + intros [= ->]. split; [done|]. by exists e, f.
    + intros (_ & e' & f' & [= <-] & [= <-] & Hp'). congruence.
    + by intros f' _ [= <-].
  - split; [split|].
    + intros Hr. by apply after_embeds_raise in Hr as [? _].
    + intros (_ & e' & f' & [= <-] & [= <-] & Hp'). congruence.
    + intros f' Hr. by apply after_embeds_raise in Hr as [? _].
Qed.

(** X4: [update_tracks] returns exactly when the descriptors are available
    and either the threshold is 1.0 or above or every index the NMS routine
    returns lies in [-n .. n-1]. *)
Theorem update_tracks_returns_iff (raw : list RawDet)
    (embeds : option (list Embed)) (frame : option Frame) (self : DeepSort) :
  (exists v, outcome (update_tracks raw embeds frame self) = inr v)
  <-> exists es,
        descriptors_used raw embeds frame self = Some es
        /\ ((1 <= nms_max_overlap self)%Q
            \/ let detections :=
                 create_detections (filter_raw_detections raw) es in
               let n := Z.of_nat (length detections) in
               Forall (fun i => - n <= i < n)
                 (non_max_suppression (tlwh <$> detections)
                    (nms_max_overlap self) (confidence <$> detections))).
Proof.
  destruct (descriptors_used raw embeds frame self) as [es|] eqn:Hes.
  - rewrite (update_tracks_with_descriptors _ _ _ _ _ Hes), after_embeds_outcome.
    simpl. destruct (Py.Qltb _ _) eqn:Ho.
    + apply Qltb_true in Ho. split.
      * intros [v Hv]. exists es. split; [done|]. right.
        apply mapM_getitem_is_Some. destruct (mapM _ _); [eauto|done].
      * intros (es' & [= <-] & [Hge|Hall]).
        { exfalso. by apply (Qlt_not_le _ _ Ho). }
        apply mapM_getitem_is_Some in Hall as [kept ->]. eauto.
    + apply Qltb_false in Ho. split; [|eauto].
      intros _. exists es. auto.
  - destruct (update_tracks_without_descriptors _ _ _ _ Hes)
      as (e & cs & -> & _).
    simpl. split; [by intros [? ?]|by intros (? & ? & _)].
Qed.

(** X5: whatever exception a call to [update_tracks] ends with, the object
    is what it was before the call and the tracker has not been called: every
    raise precedes [tracker.predict()]. *)
Theorem update_tracks_raise_before_tracker (raw : list RawDet)
    (embeds : option (list Embed)) (frame : option Frame) (self : DeepSort)
    (e : exn) :
  outcome (update_tracks raw embeds frame self) = inl e ->
  self_after (update_tracks raw embeds frame self) = self
  /\ tracker_calls (calls (update_tracks raw embeds frame self)) = []
  /\ update_calls (calls (update_tracks raw embeds frame self)) = [].
Proof.
  destruct (descriptors_used raw embeds frame self) as [es|] eqn:Hes.
  - rewrite (update_tracks_with_descriptors _ _ _ _ _ Hes).
    unfold after_embeds, tracker_calls, update_calls.
    destruct (Py.Qltb _ _); [|done].
    destruct (mapM _ _); [done|]. intros _. simpl.
    rewrite List.filter_app, omap_app. simpl. rewrite !app_nil_r.
    by destruct embeds, frame.
  - destruct (update_tracks_without_descriptors _ _ _ _ Hes)
      as (e' & cs & -> & _ & ? & _ & ?). done.
Qed.

(** X6: no run of [update_tracks] changes the configuration of the object:
    the NMS threshold and the embedder are afterwards what they were, and
    only the tracker may differ. *)
Theorem update_tracks_keeps_configuration (raw : list RawDet)
    (embeds : option (list Embed)) (frame : option Frame) (self : DeepSort) :
  let run := update_tracks raw embeds frame self in
  nms_max_overlap (self_after run) = nms_max_overlap self
  /\ embedder (self_after run) = embedder self
  /\ (tracker (self_after run) = tracker self -> self_after run = self).
Proof.
  simpl.
  destruct (descriptors_used raw embeds frame self) as [es|] eqn:Hes.
  - rewrite (update_tracks_with_descriptors _ _ _ _ _ Hes).
    unfold after_embeds, with_tracker.
    destruct (Py.Qltb _ _); [destruct (mapM _ _)|]; simpl;
      (split; [done|]; split; [done|]); try done;
      intros ->; by destruct self.
  - destruct (update_tracks_without_descriptors _ _ _ _ Hes)
      as (e' & cs & -> & _). done.
Qed.

End UpdateTracksCases.

(** ** What reaches the collaborators *)

Section CollaboratorCalls.

Context `{TrackerAPI} `{Helpers}.

(** X7: supplied descriptors are not filtered with the detections.  When
    the first raw detection is degenerate and the second is not, the second
    detection is handed to the tracker with the first descriptor. *)
Theorem degenerate_detection_shifts_descriptors (d0 d1 : RawDet)
    (raw : list RawDet) (e0 e1 : Embed) (es : list Embed)
    (frame : option Frame) (self : DeepSort) :
  positive_size d0 = false ->
  positive_size d1 = true ->
  (1 <= nms_max_overlap self)%Q ->
  exists ds,
    update_calls (calls (update_tracks (d0 :: d1 :: raw)
                           (Some (e0 :: e1 :: es)) frame self))
    = [mkDetection d1.1.1 d1.1.2 e0 d1.2 :: ds].
Proof.
  intros Hd0 Hd1 Ho. apply Qltb_false in Ho.
  rewrite update_tracks_unfolded_eq.
  unfold update_tracks_unfolded, after_embeds, filter_raw_detections.
  rewrite Ho. simpl. rewrite Hd0, Hd1. simpl. eauto.
Qed.

(** X8: when no raw detection has positive width and height (the empty list
    included) and descriptors are supplied with the threshold at 1.0 or
    above, the call still runs [predict()] and [update([])] and returns the
    tracks of the tracker so updated. *)
Theorem no_surviving_detection_still_updates (raw : list RawDet)
    (es : list Embed) (frame : option Frame) (self : DeepSort) :
  Forall (fun d => positive_size d = false) raw ->
  (1 <= nms_max_overlap self)%Q ->
  let t := Tracker_update (Tracker_predict (tracker self)) [] in
  update_tracks raw (Some es) frame self
  = mkRun (inr (tracks t)) (with_tracker self t) [CallPredict; CallUpdate []].
Proof.
  intros Hraw Ho. apply Qltb_false in Ho.
  assert (Hf : filter_raw_detections raw = []).
  { unfold filter_raw_detections.
    induction Hraw as [|d raw Hd _ IH]; [done|]. simpl. by rewrite Hd. }
  rewrite update_tracks_unfolded_eq.
  unfold update_tracks_unfolded, after_embeds. by rewrite Hf, Ho.
Qed.

(** X9: every Detection object handed to [tracker.update] is one of the
    objects [create_detections] built from the filtered raw detections and
    the descriptors in use: the NMS step may drop, repeat or reorder them but
    never brings in another. *)
Theorem tracker_receives_created_detections (raw : list RawDet)
    (embeds : option (list Embed)) (frame : option Frame) (self : DeepSort)
    (es : list Embed) (ds : list Detection) :
  descriptors_used raw embeds frame self = Some es ->
  ds ∈ update_calls (calls (update_tracks raw embeds frame self)) ->
  Forall (fun d => d ∈ create_detections (filter_raw_detections raw) es) ds.
Proof.
  intros Hes. rewrite (update_tracks_with_descriptors _ _ _ _ _ Hes).
  assert (Hpre : update_calls
            (match embeds, frame with
             | None, Some f =>
                 [CallEmbedder (crops_of f (filter_raw_detections raw))]
             | _, _ => []
             end) = []) by by destruct embeds, frame.
  unfold after_embeds, update_calls in *.
  destruct (Py.Qltb _ _).
  - destruct (mapM _ _) as [kept|] eqn:Hk; simpl;
      rewrite omap_app, Hpre; simpl.
    + intros ->%list_elem_of_singleton. by eapply mapM_getitem_elem_of.
    + by intros ?%elem_of_nil.
  - simpl. rewrite omap_app, Hpre. simpl.
    intros ->%list_elem_of_singleton. by apply Forall_forall.
Qed.

(** X10: the embedder is called at most once per call, and never when
    descriptors are supplied, even if an embedder exists and a frame is
    given.  When it is called, no descriptors were supplied, embedder and
    frame are there, and it receives the crops of the filtered detections. *)
Theorem embedder_called_at_most_once (raw : list RawDet)
    (embeds : option (list Embed)) (frame : option Frame) (self : DeepSort) :
  (forall es,
     embedder_calls (calls (update_tracks raw (Some es) frame self)) = [])
  /\ (forall crops,
        crops ∈ embedder_calls (calls (update_tracks raw embeds frame self)) ->
        embedder_calls (calls (update_tracks raw embeds frame self)) = [crops]
        /\ embeds = None /\ embedder self <> None
        /\ exists f, frame = Some f
             /\ crops = crops_of f (filter_raw_detections raw)).
Proof.
  split.
  - intros es. rewrite update_tracks_unfolded_eq.
    unfold update_tracks_unfolded, after_embeds, embedder_calls.
    destruct (Py.Qltb _ _); [|done]. by destruct (mapM _ _).
  - intros crops. rewrite update_tracks_unfolded_eq.
    unfold update_tracks_unfolded, after_embeds, embedder_calls.
    destruct embeds as [es|].
    { destruct (Py.Qltb _ _); [destruct (mapM _ _)|]; simpl;
        by intros ?%elem_of_nil. }
    destruct (embedder self) as [e|]; [|by intros ?%elem_of_nil].
    destruct frame as [f|]; [|by intros ?%elem_of_nil].
    destruct (Embedder_predict _ _);
      [|destruct (Py.Qltb _ _); [destruct (mapM _ _)|]]; simpl;
      intros ->%list_elem_of_singleton; (repeat split; try done); by exists f.
Qed.

(** X11: the collaborators are called in a fixed order: the embedder (if at
    all) before the NMS routine (if at all) before the tracker. *)
Theorem collaborators_called_in_order (raw : list RawDet)
    (embeds : option (list Embed)) (frame : option Frame) (self : DeepSort) :
  let cs := calls (update_tracks raw embeds frame self) in
  cs = (CallEmbedder <$> embedder_calls cs)
       ++ ((fun '(boxes, o, scores) => CallNMS boxes o scores) <$> nms_calls cs)
       ++ tracker_calls cs.
Proof.
  simpl. rewrite update_tracks_unfolded_eq.
  unfold update_tracks_unfolded, after_embeds.
  destruct embeds as [es|].
  { destruct (Py.Qltb _ _); [|done]. by destruct (mapM _ _). }
  destruct (embedder self); [|done].
  destruct frame as [f|]; [|done].
  destruct (Embedder_predict _ _); [done|].
  destruct (Py.Qltb _ _); [|done]. by destruct (mapM _ _).
Qed.

(** X12: two calls in a row compose: with descriptors supplied and the
    threshold at 1.0 or above, the second call starts from the tracker the
    first one left, and the tracker sees predict, update, predict, update. *)
Theorem two_calls_compose (raw1 raw2 : list RawDet) (es1 es2 : list Embed)
    (frame1 frame2 : option Frame) (self : DeepSort) :
  (1 <= nms_max_overlap self)%Q ->
  let ds1 := create_detections (filter_raw_detections raw1) es1 in
  let ds2 := create_detections (filter_raw_detections raw2) es2 in
  let t1 := Tracker_update (Tracker_predict (tracker self)) ds1 in
  let t2 := Tracker_update (Tracker_predict t1) ds2 in
  bind (update_tracks raw1 (Some es1) frame1)
       (fun _ => update_tracks raw2 (Some es2) frame2) self
  = mkRun (inr (tracks t2)) (with_tracker self t2)
      [CallPredict; CallUpdate ds1; CallPredict; CallUpdate ds2].
Proof.
  intros Ho. apply Qltb_false in Ho. simpl.
  unfold bind. rewrite !update_tracks_unfolded_eq.
  unfold update_tracks_unfolded, after_embeds. rewrite Ho. simpl.
  rewrite update_tracks_unfolded_eq.
  unfold update_tracks_unfolded, after_embeds. simpl. by rewrite Ho.
Qed.

End CollaboratorCalls.

(** ** The crops of [generate_embeds] *)

(** X13: a crop never leaves the frame, whatever the box: it is a block of
    rows and columns of the frame, [r0 + height <= H] and
    [c0 + width <= W], so slicing never reads outside the image. *)
Theorem crop_within_frame (frame : Frame) (detection : RawDet) :
  let c := detection_crop frame detection in
  exists r0 c0 : nat,
    (r0 + im_height c <= im_height frame)%nat
    /\ (c0 + im_width c <= im_width frame)%nat
    /\ forall i j, pixel c i j = pixel frame (r0 + i)%nat (c0 + j)%nat.
Proof.
  unfold detection_crop, crop, Py.slice_indices. simpl.
  eexists _, _. split; [|split; [|reflexivity]];
    unfold Py.adjust_index;
    repeat match goal with
           | |- context [?a <? ?b] => destruct (Z.ltb_spec a b)
           end; lia.
Qed.

(** X15: for a box that lies inside the frame the crop is the box: [h] rows
    and [w] columns (after [int()]), starting at row [t] and column [l]. *)
Theorem crop_of_box_inside_frame (frame : Frame) (detection : RawDet) :
  let l := Py.int (bx_l detection.1.1) in
  let t := Py.int (bx_t detection.1.1) in
  let w := Py.int (bx_w detection.1.1) in
  let h := Py.int (bx_h detection.1.1) in
  0 <= l -> 0 <= t -> 0 <= w -> 0 <= h ->
  l + w <= Z.of_nat (im_width frame) ->
  t + h <= Z.of_nat (im_height frame) ->
  let c := detection_crop frame detection in
  im_height c = Z.to_nat h /\ im_width c = Z.to_nat w
  /\ forall i j,
       pixel c i j = pixel frame (Z.to_nat t + i)%nat (Z.to_nat l + j)%nat.
Proof.
  simpl. intros Hl Ht Hw Hh Hr Hb.
  unfold detection_crop, crop, Py.slice_indices, Py.adjust_index. simpl.
  repeat match goal with
         | |- context [?a <? ?b] => destruct (Z.ltb_spec a b)
         end; try lia.
  split; [lia|]. split; [lia|]. intros i j. f_equal; lia.
Qed.

(** X16: a box that ends left of the frame ([l + w < 0], [w >= 0]) is not
    cropped to nothing: the negative right bound counts from the right edge
    and the crop holds the first [W + l + w] columns of the frame.  The same
    holds for rows when the box ends above the frame. *)
Theorem crop_wraps_around (frame : Frame) (detection : RawDet) :
  let l := Py.int (bx_l detection.1.1) in
  let t := Py.int (bx_t detection.1.1) in
  let w := Py.int (bx_w detection.1.1) in
  let h := Py.int (bx_h detection.1.1) in
  let c := detection_crop frame detection in
  (0 <= w -> l + w < 0 ->
   im_width c = Z.to_nat (Z.of_nat (im_width frame) + (l + w))
   /\ exists r0, forall i j, pixel c i j = pixel frame (r0 + i)%nat j)
  /\ (0 <= h -> t + h < 0 ->
      im_height c = Z.to_nat (Z.of_nat (im_height frame) + (t + h))
      /\ exists c0, forall i j, pixel c i j = pixel frame i (c0 + j)%nat).
Proof.
  simpl. split; intros Hpos Hneg;
    unfold detection_crop, crop, Py.slice_indices, Py.adjust_index; simpl.
  - split.
    + repeat match goal with
             | |- context [?a <? ?b] => destruct (Z.ltb_spec a b)
             end; lia.
    + eexists. intros i j. f_equal.
      repeat match goal with
             | |- context [?a <? ?b] => destruct (Z.ltb_spec a b)
             end; lia.
  - split.
    + repeat match goal with
             | |- context [?a <? ?b] => destruct (Z.ltb_spec a b)
             end; lia.
    + eexists. intros i j. f_equal.
      repeat match goal with
             | |- context [?a <? ?b] => destruct (Z.ltb_spec a b)
             end; lia.
Qed.

(** X17: the size filter does not keep empty crops away from the embedder: a
    detection less than one pixel wide passes the filter, [int()] turns its
    width into 0, and its crop has no column. *)
Theorem subpixel_box_gives_empty_crop (frame : Frame) (detection : RawDet) :
  positive_size detection = true ->
  (bx_w detection.1.1 < 1)%Q ->
  0 <= Py.int (bx_l detection.1.1) ->
  filter_raw_detections [detection] = [detection]
  /\ Py.int (bx_w detection.1.1) = 0
  /\ im_width (detection_crop frame detection) = 0%nat.
Proof.
  intros Hpos Hw Hl.
  assert (Hw0 : Py.int (bx_w detection.1.1) = 0).
  { apply positive_size_spec in Hpos as [Hpos _]. revert Hpos Hw.
    unfold Py.int, Qlt. destruct (bx_w detection.1.1) as [n d]. simpl.
    intros. apply Z.quot_small. lia. }
  split; [unfold filter_raw_detections; simpl; by rewrite Hpos|].
  split; [done|].
  unfold detection_crop, crop, Py.slice_indices, Py.adjust_index. simpl.
  rewrite Hw0.
  repeat match goal with
         | |- context [?a <? ?b] => destruct (Z.ltb_spec a b)
         end; lia.
Qed.

(** ** More on [create_detections] *)

(** X18: the inputs can be read back from the Detection objects: their
    boxes, confidences and classes are the raw detections, and their features
    the descriptors, each cut to the length of the other list; with equal
    counts nothing is lost. *)
Theorem create_detections_round_trip (raw_dets : list RawDet)
    (embeds : list Embed) :
  let back := fun d => (tlwh d, confidence d, class_name d) in
  back <$> create_detections raw_dets embeds
    = take (length embeds) raw_dets
  /\ feature <$> create_detections raw_dets embeds
     = take (length raw_dets) embeds
  /\ (length raw_dets = length embeds ->
      back <$> create_detections raw_dets embeds = raw_dets
      /\ feature <$> create_detections raw_dets embeds = embeds).
Proof.
  simpl. split; [apply create_detections_raw|].
  split; [apply create_detections_features|].
  intros Hlen. split.
  - rewrite create_detections_raw. apply take_ge, Nat.eq_le_incl.
    exact Hlen.
  - rewrite create_detections_features. apply take_ge, Nat.eq_le_incl.
    symmetry. exact Hlen.
Qed.

(** X19: [create_detections] works through its inputs from the front: on
    concatenated inputs whose first parts have equal counts it gives the
    concatenation of the results. *)
Theorem create_detections_app (raw1 raw2 : list RawDet)
    (embeds1 embeds2 : list Embed) :
  length raw1 = length embeds1 ->
  create_detections (raw1 ++ raw2) (embeds1 ++ embeds2)
  = create_detections raw1 embeds1 ++ create_detections raw2 embeds2.
Proof.
  intros Hlen. unfold create_detections.
  by rewrite zip_with_app, fmap_app.
Qed.

(** ** Further runs on the concrete inputs *)

Section MoreConcreteRuns.

#[local] Existing Instance Demo.tracker_api.
#[local] Existing Instance Demo.helpers.

Lemma degenerate_detection_shifts_descriptors_witness :
  positive_size (Demo.box 0 0 0 50, 5 # 10, "person"%string) = false
  /\ positive_size (Demo.box 50 50 50 50, 5 # 10, "person"%string) = true
  /\ (1 <= nms_max_overlap Demo.tracker0)%Q
  /\ exists ds,
       update_calls
         (calls (update_tracks Demo.detections_degenerate (Some Demo.embeds1)
                   None Demo.tracker0))
       = [mkDetection (Demo.box 50 50 50 50) (5 # 10)
            [1 # 10; 1 # 10; 1 # 10; 1 # 10]%Q "person" :: ds].
Proof.
  assert (Ho : (1 <= nms_max_overlap Demo.tracker0)%Q) by discriminate.
  split; [reflexivity|]. split; [reflexivity|]. split; [exact Ho|].
  exact (degenerate_detection_shifts_descriptors
           (Demo.box 0 0 0 50, 5 # 10, "person"%string)
           (Demo.box 50 50 50 50, 5 # 10, "person"%string) []
           [1 # 10; 1 # 10; 1 # 10; 1 # 10]%Q [- (1); 1; 1 # 2; - (1 # 2)]%Q []
           None Demo.tracker0 eq_refl eq_refl Ho).
Defined.

Lemma no_surviving_detection_still_updates_witness :
  Forall (fun d => positive_size d = false)
    [(Demo.box 0 0 0 50, 5 # 10, "person"%string)]
  /\ (1 <= nms_max_overlap Demo.tracker0)%Q
  /\ update_tracks [(Demo.box 0 0 0 50, 5 # 10, "person"%string)]
       (Some Demo.embeds1) None Demo.tracker0
     = (let t := Tracker_update (Tracker_predict (tracker Demo.tracker0)) [] in
        mkRun (inr (tracks t)) (with_tracker Demo.tracker0 t)
          [CallPredict; CallUpdate []]).
Proof.
  assert (Ho : (1 <= nms_max_overlap Demo.tracker0)%Q) by discriminate.
  assert (Hall : Forall (fun d => positive_size d = false)
                   [(Demo.box 0 0 0 50, 5 # 10, "person"%string)])
    by (repeat constructor).
  split; [exact Hall|]. split; [exact Ho|].
  exact (no_surviving_detection_still_updates _ Demo.embeds1 None
           Demo.tracker0 Hall Ho).
Defined.

Lemma tracker_receives_created_detections_witness :
  let ds := create_detections (filter_raw_detections Demo.detections1)
              Demo.embeds1 in
  descriptors_used Demo.detections1 (Some Demo.embeds1) None Demo.tracker_nms
    = Some Demo.embeds1
  /\ ds ∈ update_calls
            (calls (update_tracks Demo.detections1 (Some Demo.embeds1) None
                      Demo.tracker_nms))
  /\ Forall (fun d => d ∈ ds) ds.
Proof.
  assert (Hin : create_detections (filter_raw_detections Demo.detections1)
                  Demo.embeds1
                ∈ update_calls
                    (calls (update_tracks Demo.detections1
                              (Some Demo.embeds1) None Demo.tracker_nms)))
    by (vm_compute; constructor).
  split; [reflexivity|]. split; [exact Hin|].
  exact (tracker_receives_created_detections Demo.detections1
           (Some Demo.embeds1) None Demo.tracker_nms Demo.embeds1 _
           eq_refl Hin).
Defined.

Lemma two_calls_compose_witness :
  let ds1 := create_detections (filter_raw_detections Demo.detections1)
               Demo.embeds1 in
  let ds2 := create_detections (filter_raw_detections Demo.detections2)
               Demo.embeds2 in
  let t1 := Tracker_update (Tracker_predict (tracker Demo.tracker0)) ds1 in
  let t2 := Tracker_update (Tracker_predict t1) ds2 in
  (1 <= nms_max_overlap Demo.tracker0)%Q
  /\ bind (update_tracks Demo.detections1 (Some Demo.embeds1) None)
          (fun _ => update_tracks Demo.detections2 (Some Demo.embeds2) None)
          Demo.tracker0
     = mkRun (inr (tracks t2)) (with_tracker Demo.tracker0 t2)
         [CallPredict; CallUpdate ds1; CallPredict; CallUpdate ds2].
Proof.
  assert (Ho : (1 <= nms_max_overlap Demo.tracker0)%Q) by discriminate.
  split; [exact Ho|].
  exact (two_calls_compose Demo.detections1 Demo.detections2 Demo.embeds1
           Demo.embeds2 None None Demo.tracker0 Ho).
Defined.

Lemma detection_crop_clipped_witness :
  0 <= Py.int (bx_l Demo.inside.1.1) + Py.int (bx_w Demo.inside.1.1)
  /\ 0 <= Py.int (bx_t Demo.inside.1.1) + Py.int (bx_h Demo.inside.1.1)
  /\ im_height (detection_crop Demo.frame1 Demo.inside)
     = im_height (clipped_region Demo.frame1 Demo.inside)
  /\ im_width (detection_crop Demo.frame1 Demo.inside)
     = im_width (clipped_region Demo.frame1 Demo.inside).
Proof.
  assert (Hr : 0 <= Py.int (bx_l Demo.inside.1.1)
                    + Py.int (bx_w Demo.inside.1.1)) by discriminate.
  assert (Hb : 0 <= Py.int (bx_t Demo.inside.1.1)
                    + Py.int (bx_h Demo.inside.1.1)) by discriminate.
  split; [exact Hr|]. split; [exact Hb|].
  destruct (detection_crop_clipped Demo.frame1 Demo.inside Hr Hb)
    as (Hh & Hw & _).
  split; [exact Hh|exact Hw].
Defined.

Lemma crop_of_box_inside_frame_witness :
  im_height (detection_crop Demo.frame1 Demo.inside) = 40%nat
  /\ im_width (detection_crop Demo.frame1 Demo.inside) = 30%nat
  /\ pixel (detection_crop Demo.frame1 Demo.inside) 0 0
     = pixel Demo.frame1 20 10.
Proof.
  destruct (crop_of_box_inside_frame Demo.frame1 Demo.inside)
    as (Hh & Hw & Hp); try discriminate.
  split; [exact Hh|]. split; [exact Hw|]. exact (Hp 0%nat 0%nat).
Defined.

Lemma crop_wraps_around_witness :
  0 <= Py.int (bx_w Demo.outside_left.1.1)
  /\ Py.int (bx_l Demo.outside_left.1.1)
     + Py.int (bx_w Demo.outside_left.1.1) < 0
  /\ im_width (detection_crop Demo.frame1 Demo.outside_left) = 50%nat.
Proof.
  assert (Hw : 0 <= Py.int (bx_w Demo.outside_left.1.1)) by discriminate.
  assert (Hr : Py.int (bx_l Demo.outside_left.1.1)
               + Py.int (bx_w Demo.outside_left.1.1) < 0) by reflexivity.
  split; [exact Hw|]. split; [exact Hr|].
  exact (proj1 (proj1 (crop_wraps_around Demo.frame1 Demo.outside_left)
                  Hw Hr)).
Defined.

Lemma subpixel_box_gives_empty_crop_witness :
  positive_size Demo.thin = true
  /\ (bx_w Demo.thin.1.1 < 1)%Q
  /\ 0 <= Py.int (bx_l Demo.thin.1.1)
  /\ (filter_raw_detections [Demo.thin] = [Demo.thin]
      /\ Py.int (bx_w Demo.thin.1.1) = 0
      /\ im_width (detection_crop Demo.frame1 Demo.thin) = 0%nat).
Proof.
  assert (Hw : (bx_w Demo.thin.1.1 < 1)%Q) by reflexivity.
  assert (Hl : 0 <= Py.int (bx_l Demo.thin.1.1)) by discriminate.
  split; [reflexivity|]. split; [exact Hw|]. split; [exact Hl|].
  exact (subpixel_box_gives_empty_crop Demo.frame1 Demo.thin eq_refl Hw Hl).
Defined.

Lemma create_detections_round_trip_witness :
  length Demo.detections1 = length Demo.embeds1
  /\ (fun d => (tlwh d, confidence d, class_name d))
       <$> create_detections Demo.detections1 Demo.embeds1
     = Demo.detections1
  /\ feature <$> create_detections Demo.detections1 Demo.embeds1
     = Demo.embeds1.
Proof.
  split; [reflexivity|].
  exact (proj2 (proj2 (create_detections_round_trip Demo.detections1
                         Demo.embeds1)) eq_refl).
Defined.

Lemma create_detections_app_witness :
  length Demo.detections1 = length Demo.embeds1
  /\ create_detections (Demo.detections1 ++ Demo.detections2)
       (Demo.embeds1 ++ Demo.embeds2)
     = create_detections Demo.detections1 Demo.embeds1
       ++ create_detections Demo.detections2 Demo.embeds2.
Proof.
  split; [reflexivity|].
  exact (create_detections_app Demo.detections1 Demo.detections2
           Demo.embeds1 Demo.embeds2 eq_refl).
Defined.

End MoreConcreteRuns.

Section RunsWithBadNMS.

#[local] Existing Instance Demo.tracker_api.
#[local] Existing Instance Demo.helpers_bad_nms.

(** With suppression on and an NMS routine that answers with an index one
    past the end, the call ends with [IndexError] and the tracker is
    untouched. *)
Lemma update_tracks_raise_before_tracker_witness :
  let run := update_tracks Demo.detections1 (Some Demo.embeds1) None
               Demo.tracker_nms in
  outcome run = inl IndexError
  /\ (self_after run = Demo.tracker_nms
      /\ tracker_calls (calls run) = []
      /\ update_calls (calls run) = []).
Proof.
  split; [reflexivity|].
  apply (update_tracks_raise_before_tracker Demo.detections1
           (Some Demo.embeds1) None Demo.tracker_nms IndexError).
  reflexivity.
Defined.

Lemma update_tracks_index_error_iff_witness :
  let ds := create_detections (filter_raw_detections Demo.detections1)
              Demo.embeds1 in
  (nms_max_overlap Demo.tracker_nms < 1)%Q
  /\ 2 ∈ non_max_suppression (tlwh <$> ds) (nms_max_overlap Demo.tracker_nms)
           (confidence <$> ds)
  /\ outcome (update_tracks Demo.detections1 (Some Demo.embeds1) None
                Demo.tracker_nms) = inl IndexError.
Proof.
  assert (Ho : (nms_max_overlap Demo.tracker_nms < 1)%Q) by reflexivity.
  assert (Hi : 2 ∈ non_max_suppression
                 (tlwh <$> create_detections
                    (filter_raw_detections Demo.detections1) Demo.embeds1)
                 (nms_max_overlap Demo.tracker_nms)
                 (confidence <$> create_detections
                    (filter_raw_detections Demo.detections1) Demo.embeds1))
    by (vm_compute; constructor).
  split; [exact Ho|]. split; [exact Hi|].
  apply (proj2 (update_tracks_index_error_iff Demo.detections1
                  (Some Demo.embeds1) None Demo.tracker_nms)).
  exists Demo.embeds1. split; [reflexivity|]. split; [exact Ho|].
  exists 2. split; [exact Hi|]. vm_compute. intros [_ Hlt]. discriminate Hlt.
Defined.

End RunsWithBadNMS.
